(** * Interview session engine of EnhancedInterviewSession.tsx

    A shallow embedding of the client-side scoring and session-state code of
    [frontend/src/components/EnhancedInterviewSession.tsx]:

    - the local heuristic scorer [calculateRealisticScore];
    - the score-merge step [updateScoreWithEvaluation] and the skip handler
      [skipQuestion] with [calculateSkipPenalty];
    - the telemetry handlers registered on the web-socket service;
    - the remote-first evaluation [evaluateResponse], the recording
      transition [startRecording] and the fallback-question path of
      [generateNewQuestion];
    - the question parameters [getQuestionCategory] and [getDifficulty],
      [stopRecording], the speech-recognition [onresult] handler and the
      statistics helpers of [endInterview], with runs of handler calls.

    Conventions.  A JavaScript string is the list of its UTF-16 code units.
    JavaScript numbers are modelled by exact rationals ([Q]) or, where the
    code only produces integers, by [Z]; the one place where binary rounding
    changes an integer result, [Math.floor(totalScore * 0.7)], is computed
    with the IEEE-754 double product.  A functional state update applies
    to the live state; a handler reads the state of the render that
    created it, which is passed on its own where the handler runs later
    than that render (a timer callback, the continuation of an [await]).
    Clock readings, timers, alerts and remote outcomes are explicit. *)

From Stdlib Require Import ZArith QArith Qround Qminmax Lqa Lia.
From Stdlib Require Import List Bool String Ascii.
Import ListNotations.

Local Open Scope string_scope.
Local Open Scope list_scope.
Local Open Scope Z_scope.

(* ------------------------------------------------------------------ *)
(** ** JavaScript strings *)

Module JsString.

(** A string is its sequence of UTF-16 code units. *)
Definition jsstring := list N.

(** A source literal (all literals of the file are ASCII). *)
Fixpoint lit (s : string) : jsstring :=
  match s with
  | EmptyString => []
  | String c s' => N_of_ascii c :: lit s'
  end.

Definition inRange (lo hi c : N) : bool := (N.leb lo c && N.leb c hi)%bool.

(** [\s] of a regular expression and the characters removed by
    [String.prototype.trim]: WhiteSpace and LineTerminator of ECMAScript. *)
Definition isWhiteSpace (c : N) : bool :=
  (inRange 9 13 c || N.eqb c 32 || N.eqb c 160 || N.eqb c 5760
   || inRange 8192 8202 c || N.eqb c 8232 || N.eqb c 8233
   || N.eqb c 8239 || N.eqb c 8287 || N.eqb c 12288 || N.eqb c 65279)%bool%N.

(** [\d] *)
Definition isDigit (c : N) : bool := inRange 48 57 c.

(** [\w]: [A-Za-z0-9_] *)
Definition isWordChar (c : N) : bool :=
  (inRange 65 90 c || inRange 97 122 c || isDigit c || N.eqb c 95)%bool.

(** Canonicalisation of the [i] flag (without [u]): a code unit is
    compared through its upper-case form, and a non-ASCII code unit is
    never identified with an ASCII one. *)
Definition canonicalize (c : N) : N :=
  if inRange 97 122 c then (c - 32)%N else c.

Definition eqCI (a b : N) : bool := N.eqb (canonicalize a) (canonicalize b).

Fixpoint dropWhile {A} (p : A -> bool) (l : list A) : list A :=
  match l with
  | [] => []
  | x :: l' => if p x then dropWhile p l' else l
  end.

Definition trimStart (s : jsstring) : jsstring := dropWhile isWhiteSpace s.
Definition trimEnd (s : jsstring) : jsstring :=
  rev (dropWhile isWhiteSpace (rev s)).

(** [s.trim()] *)
Definition trim (s : jsstring) : jsstring := trimEnd (trimStart s).

(** [s.split(/[class]+/)]: the fields between maximal runs of separator
    characters; a run at either end yields an empty field there, and the
    empty string yields one empty field. *)
Fixpoint splitRunsAux (sep : N -> bool) (cur : jsstring) (inRun : bool)
         (s : jsstring) : list jsstring :=
  match s with
  | [] => [rev cur]
  | c :: s' =>
      if sep c then
        if inRun then splitRunsAux sep cur true s'
        else rev cur :: splitRunsAux sep [] true s'
      else splitRunsAux sep (c :: cur) false s'
  end.

Definition splitRuns (sep : N -> bool) (s : jsstring) : list jsstring :=
  splitRunsAux sep [] false s.

(** [s.split(' ')]: one field per separator occurrence. *)
Fixpoint splitCharAux (d : N) (cur : jsstring) (s : jsstring)
  : list jsstring :=
  match s with
  | [] => [rev cur]
  | c :: s' =>
      if N.eqb c d then rev cur :: splitCharAux d [] s'
      else splitCharAux d (c :: cur) s'
  end.

Definition splitChar (d : N) (s : jsstring) : list jsstring :=
  splitCharAux d [] s.

Fixpoint eqb (a b : jsstring) : bool :=
  match a, b with
  | [], [] => true
  | x :: a', y :: b' => (N.eqb x y && eqb a' b')%bool
  | _, _ => false
  end.

Fixpoint startsWith (p s : jsstring) : bool :=
  match p, s with
  | [], _ => true
  | x :: p', y :: s' => (N.eqb x y && startsWith p' s')%bool
  | _ :: _, [] => false
  end.

(** [s.includes(p)] *)
Fixpoint includes (p s : jsstring) : bool :=
  (startsWith p s ||
   match s with
   | [] => false
   | _ :: s' => includes p s'
   end)%bool.

Definition length (s : jsstring) : Z := Z.of_nat (List.length s).

End JsString.

Import JsString.

(* ------------------------------------------------------------------ *)
(** ** The regular expressions of the scorer

    A backtracking matcher for the fragment the source uses: literals under
    the [i] flag, [\d+], [\s*], [\b], sequence and alternation.  A matcher
    state is the code unit before the current position (if any) and the
    rest of the input; [run] lists the states after every way to match, in
    the priority order of a backtracking engine. *)

Module Regex.

Inductive pattern : Type :=
| PLit (s : string)              (* a literal, compared under [i] *)
| PPlus (cls : N -> bool)        (* [cls+], greedy *)
| PStar (cls : N -> bool)        (* [cls*], greedy *)
| PBoundary                      (* [\b] *)
| PSeq (p q : pattern)
| PAlt (p q : pattern).

Definition cursor : Type := (option N * jsstring)%type.

Fixpoint litCI (p : jsstring) (prev : option N) (s : jsstring)
  : list cursor :=
  match p with
  | [] => [(prev, s)]
  | x :: p' =>
      match s with
      | [] => []
      | c :: s' => if eqCI x c then litCI p' (Some c) s' else []
      end
  end.

(** Every way to consume a run of [cls], the longest first; [needOne]
    holds while a first character is still required ([cls+]). *)
Fixpoint runClass (cls : N -> bool) (needOne : bool) (prev : option N)
         (s : jsstring) : list cursor :=
  match s with
  | c :: s' =>
      if cls c then
        runClass cls false (Some c) s' ++ (if needOne then [] else [(prev, s)])
      else if needOne then [] else [(prev, s)]
  | [] => if needOne then [] else [(prev, s)]
  end.

Definition wordBefore (prev : option N) : bool :=
  match prev with Some c => isWordChar c | None => false end.

Definition wordAfter (s : jsstring) : bool :=
  match s with c :: _ => isWordChar c | [] => false end.

Fixpoint run (p : pattern) (cur : cursor) : list cursor :=
  match p with
  | PLit s => litCI (lit s) (fst cur) (snd cur)
  | PPlus cls => runClass cls true (fst cur) (snd cur)
  | PStar cls => runClass cls false (fst cur) (snd cur)
  | PBoundary =>
      if xorb (wordBefore (fst cur)) (wordAfter (snd cur)) then [cur] else []
  | PSeq p1 p2 => flat_map (run p2) (run p1 cur)
  | PAlt p1 p2 => run p1 cur ++ run p2 cur
  end.

(** The first match at the current position, as the state after it. *)
Definition matchHere (p : pattern) (cur : cursor) : option cursor :=
  match run p cur with
  | [] => None
  | r :: _ => Some r
  end.

(** [re.test(s)]: a match at some position, scanning left to right. *)
Fixpoint testFrom (p : pattern) (prev : option N) (s : jsstring) : bool :=
  match matchHere p (prev, s) with
  | Some _ => true
  | None =>
      match s with
      | [] => false
      | c :: s' => testFrom p (Some c) s'
      end
  end.

Definition test (p : pattern) (s : jsstring) : bool := testFrom p None s.

(** [(s.match(re) || []).length] for a global [re] whose matches are never
    empty: after a match the scan resumes where the match ended.  [skip]
    counts the code units of the last match still to be passed over. *)
Fixpoint countFrom (p : pattern) (skip : nat) (prev : option N)
         (s : jsstring) : Z :=
  match skip with
  | S k =>
      match s with
      | [] => 0
      | c :: s' => countFrom p k (Some c) s'
      end
  | O =>
      match s with
      | [] => 0
      | c :: s' =>
          match matchHere p (prev, s) with
          | Some (_, rest) =>
              1 + countFrom p (Nat.pred (List.length s - List.length rest))
                    (Some c) s'
          | None => countFrom p 0 (Some c) s'
          end
      end
  end.

Definition countMatches (p : pattern) (s : jsstring) : Z :=
  countFrom p 0 None s.

Fixpoint alts (ps : list pattern) : pattern :=
  match ps with
  | [] => PPlus (fun _ => false)       (* matches nothing *)
  | [p] => p
  | p :: ps' => PAlt p (alts ps')
  end.

Definition words (ws : list string) : pattern := alts (map PLit ws).

End Regex.

(* ------------------------------------------------------------------ *)
(** ** Numbers *)

Module JsNumber.

Definition Qlt_bool (x y : Q) : bool := negb (Qle_bool y x).

(** [v || 0] for a numeric field that may be absent. *)
Definition orZero (v : option Q) : Q :=
  match v with Some q => q | None => 0%Q end.

(** The double nearest to 0.7 is [m07 * 2^-53]. *)
Definition m07 : Z := 6305039478318694.

(** [p / 2^k] rounded to the nearest integer, ties to even. *)
Definition roundHalfEven (p k : Z) : Z :=
  if k <=? 0 then p * 2 ^ (- k)
  else
    let q := p / 2 ^ k in
    let r := p mod 2 ^ k in
    let half := 2 ^ (k - 1) in
    if r <? half then q
    else if half <? r then q + 1
    else if Z.even q then q else q + 1.

(** The double [t * 0.7] for an integer [0 <= t < 2^53], as a 53-bit
    significand and the number of bits it is shifted left of [2^-53]. *)
Definition times07 (t : Z) : Z * Z :=
  let p := t * m07 in
  let k := Z.max 0 (Z.log2 p + 1 - 53) in
  (roundHalfEven p k, k).

(** [Math.floor(t * 0.7)] for an integer score [t >= 0] (negative values,
    which the scorer never produces there, are mirrored). *)
Definition floorTimes07 (t : Z) : Z :=
  if t <? 0 then
    let '(m, k) := times07 (- t) in
    - ((m * 2 ^ k + 2 ^ 53 - 1) / 2 ^ 53)
  else
    let '(m, k) := times07 t in (m * 2 ^ k) / 2 ^ 53.

End JsNumber.

Import JsNumber.
(* ------------------------------------------------------------------ *)
(** ** Telemetry samples *)

Module Telemetry.

(** The metric bag of a facial-analysis event; a field may be absent. *)
Record FacialData : Type := {
  confidence : option Q;
  engagement : option Q;
  eye_contact : option Q
}.

(** An entry of [analysisHistory.facial] or [analysisHistory.voice]. *)
Record Entry (D : Type) : Type := {
  timestamp : Z;
  data : D
}.
Arguments timestamp {D} _.
Arguments data {D} _.

(** [l.slice(-n)] *)
Definition sliceLast {A} (n : nat) (l : list A) : list A :=
  skipn (List.length l - n) l.

(** [l.reduce((sum, entry) => sum + (f(entry) || 0), 0) / l.length] *)
Definition average {A} (f : A -> option Q) (l : list A) : Q :=
  (fold_left (fun sum entry => sum + orZero (f entry)) l 0
   / inject_Z (Z.of_nat (List.length l)))%Q.

End Telemetry.

(* ------------------------------------------------------------------ *)
(** ** The local scorer: [calculateRealisticScore] *)

Module Scorer.

Import Regex.

Record Evaluation : Type := {
  score : Z;
  feedback : string;
  strengths : list string;
  improvements : list string
}.

Definition bounded (p : pattern) : pattern := PSeq PBoundary (PSeq p PBoundary).

Definition reSpecificExamples : pattern :=
  bounded (words ["example"; "instance"; "situation"; "time when";
                  "experience"; "project"; "when I"; "I worked";
                  "I handled"; "I managed"]).

Definition reQuantifiableResults : pattern :=
  bounded
    (alts
       [PSeq (PPlus isDigit) (PLit "%");
        PSeq (PPlus isDigit) (PSeq (PStar isWhiteSpace) (PLit "percent"));
        PSeq (PLit "$") (PPlus isDigit);
        PLit "increased"; PLit "decreased"; PLit "improved"; PLit "reduced";
        PLit "achieved"; PLit "saved"; PLit "gained"; PLit "grew";
        PLit "doubled"; PLit "tripled";
        PSeq (PPlus isDigit)
             (PSeq (PStar isWhiteSpace)
                   (words ["users"; "customers"; "sales"; "revenue";
                           "efficiency"]))]).

Definition reSTARStructure : pattern :=
  words ["situation"; "task"; "action"; "result"; "challenge"; "problem";
         "solution"; "outcome"].

Definition reTechnicalTerms : pattern :=
  bounded (words ["developed"; "designed"; "implemented"; "managed"; "led";
                  "created"; "optimized"; "solved"; "programmed";
                  "architected"; "deployed"; "maintained"; "debugged";
                  "tested"; "analyzed"]).

Definition isSentenceEnd (c : N) : bool :=
  (N.eqb c 46 || N.eqb c 33 || N.eqb c 63)%bool.       (* [.!?] *)

Definition count {A} (p : A -> bool) (l : list A) : Z :=
  Z.of_nat (List.length (filter p l)).

(** [trimmedAnswer.split(/\s+/).filter(word => word.length > 1).length] *)
Definition wordCountOf (trimmedAnswer : jsstring) : Z :=
  count (fun word => 1 <? JsString.length word)
        (splitRuns isWhiteSpace trimmedAnswer).

(** [trimmedAnswer.split(/[.!?]+/).filter(s => s.trim().length > 2).length] *)
Definition sentenceCountOf (trimmedAnswer : jsstring) : Z :=
  count (fun s => 2 <? JsString.length (trim s))
        (splitRuns isSentenceEnd trimmedAnswer).

Definition clarityScoreOf (wordCount : Z) : Z :=
  (if 20 <=? wordCount then 10 else 0)
  + (if 40 <=? wordCount then 10 else 0)
  + (if 60 <=? wordCount then 10 else 0).

Definition structureScoreOf (trimmedAnswer : jsstring)
           (wordCount sentenceCount : Z) : Z :=
  let avgWordsPerSentence : Q :=
    if 0 <? sentenceCount
    then (inject_Z wordCount / inject_Z sentenceCount)%Q else 0%Q in
  (if 2 <=? sentenceCount then 5 else 0)
  + (if Qle_bool 8 avgWordsPerSentence && Qle_bool avgWordsPerSentence 25
     then 10 else 0)
  + (if includes (lit ",") trimmedAnswer || includes (lit ";") trimmedAnswer
     then 5 else 0).


Definition timingScoreOf (responseTime : Q) : Z :=
  if Qlt_bool responseTime 5 then 0
  else if Qlt_bool responseTime 15 then 5
  else if Qle_bool 20 responseTime && Qle_bool responseTime 120 then 15
  else if Qle_bool responseTime 180 then 10
  else 5.

Definition nonverbalScoreOf
           (facial : list (Telemetry.Entry Telemetry.FacialData)) : Z :=
  if (0 <? List.length facial)%nat then
    let recentFacial := Telemetry.sliceLast 10 facial in
    let avg f := Telemetry.average (fun e => f (Telemetry.data e)) recentFacial in
    (if Qlt_bool (6 # 10) (avg Telemetry.confidence) then 5 else 0)
    + (if Qlt_bool (6 # 10) (avg Telemetry.engagement) then 5 else 0)
    + (if Qlt_bool (6 # 10) (avg Telemetry.eye_contact) then 5 else 0)
  else 0.

Definition pushIf {A} (c : bool) (x : A) (l : list A) : list A :=
  if c then l ++ [x] else l.

Definition feedbackFor (totalScore : Z) : string :=
  if 85 <=? totalScore then
    "Excellent response! Strong content with specific examples and clear impact."
  else if 70 <=? totalScore then
    "Good response with solid content. Could be enhanced with more specific examples."
  else if 50 <=? totalScore then
    "Adequate start, but needs more depth, examples, and structure to be compelling."
  else if 25 <=? totalScore then
    "Basic attempt, but significantly lacks detail and specific examples. Needs major improvement."
  else
    "Insufficient response. Focus on providing detailed answers with concrete examples from your experience.".

Section WithHost.

(** [String.prototype.toLowerCase] of the host; its Unicode case tables
    are not part of the repository. *)
Variable toLowerCase : jsstring -> jsstring.

(** The full-scoring part of [calculateRealisticScore]: everything
    after the three early returns. *)
Definition fullScoring
           (facial : list (Telemetry.Entry Telemetry.FacialData))
           (trimmedAnswer : jsstring) (wordCount sentenceCount : Z)
           (responseTime : Q) : Evaluation :=
  let hasSpecificExamples := test reSpecificExamples trimmedAnswer in
  let hasQuantifiableResults := test reQuantifiableResults trimmedAnswer in
  let hasSTARStructure := test reSTARStructure trimmedAnswer in
  let technicalTerms := countMatches reTechnicalTerms trimmedAnswer in
  let clarityScore := clarityScoreOf wordCount in
  let structureScore :=
    structureScoreOf trimmedAnswer wordCount sentenceCount in
  let timingScore := timingScoreOf responseTime in
  let nonverbalScore := nonverbalScoreOf facial in
  let totalScore :=
    clarityScore + structureScore + timingScore + nonverbalScore in
  let totalScore :=
    totalScore
    + (if hasSpecificExamples && (30 <=? wordCount) then 10 else 0) in
  let totalScore :=
    totalScore
    + (if hasQuantifiableResults && (25 <=? wordCount) then 10 else 0) in
  let totalScore :=
    totalScore + (if hasSTARStructure && (40 <=? wordCount) then 10 else 0) in
  let totalScore :=
    totalScore
    + (if (2 <=? technicalTerms) && (35 <=? wordCount) then 5 else 0) in
  let totalScore :=
    if includes (lit "i dont know") (toLowerCase trimmedAnswer)
       || includes (lit "not sure") (toLowerCase trimmedAnswer)
    then floorTimes07 totalScore else totalScore in
  let totalScore :=
    if Qlt_bool (inject_Z wordCount * (8 # 10))
                (inject_Z (count (fun word => JsString.eqb word (toLowerCase word))
                                 (splitChar 32 trimmedAnswer)))
    then totalScore - 5 else totalScore in
  let totalScore :=
    if wordCount <? 20 then Z.min totalScore 35 else totalScore in
  let totalScore :=
    if (wordCount <? 30) && negb hasSpecificExamples
    then Z.min totalScore 45 else totalScore in
  let totalScore :=
    if negb hasSpecificExamples && negb hasQuantifiableResults
       && negb hasSTARStructure
    then Z.min totalScore 50 else totalScore in
  let totalScore := Z.max 0 (Z.min 100 totalScore) in
  let strengths := [] in
  let strengths :=
    pushIf (hasSpecificExamples && (25 <=? wordCount))
           "Used specific examples to support your answer" strengths in
  let strengths :=
    pushIf (hasQuantifiableResults && (20 <=? wordCount))
           "Included measurable results and impact" strengths in
  let strengths :=
    pushIf (hasSTARStructure && (30 <=? wordCount))
           "Followed a structured approach (STAR method)" strengths in
  let strengths :=
    pushIf ((50 <=? wordCount) && (20 <=? clarityScore))
           "Provided comprehensive and detailed response" strengths in
  let strengths :=
    pushIf (10 <=? nonverbalScore)
           "Demonstrated confidence through body language" strengths in
  let strengths :=
    pushIf (2 <=? technicalTerms)
           "Used relevant technical terminology effectively" strengths in
  let strengths :=
    pushIf (10 <=? timingScore)
           "Took appropriate time to think through the response" strengths in
  let improvements := [] in
  let improvements :=
    pushIf (wordCount <? 20)
           "Expand your answers with significantly more detail and depth"
           improvements in
  let improvements :=
    pushIf ((20 <=? wordCount) && (wordCount <? 40))
           "Provide more comprehensive explanations with additional context"
           improvements in
  let improvements :=
    pushIf (negb hasSpecificExamples)
           "Include concrete examples from your actual experience"
           improvements in
  let improvements :=
    pushIf (negb hasQuantifiableResults)
           "Add measurable outcomes and impact of your work" improvements in
  let improvements :=
    pushIf (negb hasSTARStructure)
           "Structure responses using STAR method (Situation, Task, Action, Result)"
           improvements in
  let improvements :=
    pushIf (Qlt_bool responseTime 10)
           "Take more time to think and plan your response" improvements in
  let improvements :=
    pushIf (Qlt_bool 150 responseTime)
           "Work on being more concise while maintaining detail"
           improvements in
  let improvements :=
    pushIf (nonverbalScore <? 5)
           "Maintain better eye contact and show more engagement"
           improvements in
  let improvements :=
    pushIf ((technicalTerms =? 0) && (15 <? wordCount))
           "Include more specific technical terminology relevant to the role"
           improvements in
  let strengths :=
    if (0 =? Z.of_nat (List.length strengths)) && (0 <? wordCount)
    then strengths ++ ["Made an attempt to answer the question"]
    else strengths in
  let improvements :=
    if (0 =? Z.of_nat (List.length improvements)) && (totalScore <? 85)
    then improvements
         ++ ["Continue practicing to refine your interview responses"]
    else improvements in
  {| score := totalScore;
     feedback := feedbackFor totalScore;
     strengths := strengths;
     improvements := improvements |}.

(** [rnd] is the value [Math.random()] returns if it is called, and
    [facial] the [analysisHistory.facial] the function closes over. *)
Definition calculateRealisticScore (rnd : Q)
           (facial : list (Telemetry.Entry Telemetry.FacialData))
           (answer : jsstring) (responseTime : Q)
           (question : option string) : Evaluation :=
  let trimmedAnswer := trim answer in
  let wordCount := wordCountOf trimmedAnswer in
  let sentenceCount := sentenceCountOf trimmedAnswer in
  if (wordCount =? 0) || (JsString.length trimmedAnswer <? 3) then
    {| score := 0;
       feedback := "No meaningful response provided. Please answer the question with specific details.";
       strengths := [];
       improvements := ["Provide a complete answer to the question";
                        "Use specific examples from your experience";
                        "Speak clearly and confidently"] |}
  else if wordCount <? 5 then
    {| score := Qfloor (rnd * 10) + 5;
       feedback := "Response is too brief and lacks substance. Elaborate with specific examples.";
       strengths := ["Attempted to answer"];
       improvements := ["Provide much more detail";
                        "Include specific examples";
                        "Explain your thought process";
                        "Use the STAR method (Situation, Task, Action, Result)"] |}
  else if wordCount <? 15 then
    {| score := Qfloor (rnd * 20) + 10;
       feedback := "Response needs significant development. Add more detail and examples.";
       strengths := if 8 <? wordCount then ["Provided a basic answer"] else [];
       improvements := ["Expand your answer with more detail";
                        "Include specific examples";
                        "Explain the impact of your actions"] |}
  else
    fullScoring facial trimmedAnswer wordCount sentenceCount responseTime.

End WithHost.

(** *** The full-scoring branch, factored

    The inputs of the full-scoring branch other than the word count, as
    the source computes them, and the score as a function of the word
    count and these factors ([calculateRealisticScore_full] below shows
    that this is the score the function returns from 15 words on). *)

Record Factors : Type := {
  structureScore : Z;
  timingScore : Z;
  nonverbalScore : Z;
  hasSpecificExamples : bool;
  hasQuantifiableResults : bool;
  hasSTARStructure : bool;
  technicalTerms : Z;
  hedges : bool;             (* "i dont know" or "not sure" present *)
  mostlyLowercase : bool     (* more than 80% of the words lower-case *)
}.

Definition factorsOf (toLowerCase : jsstring -> jsstring)
           (facial : list (Telemetry.Entry Telemetry.FacialData))
           (answer : jsstring) (responseTime : Q) : Factors :=
  let trimmedAnswer := trim answer in
  let wordCount := wordCountOf trimmedAnswer in
  {| structureScore :=
       structureScoreOf trimmedAnswer wordCount (sentenceCountOf trimmedAnswer);
     timingScore := timingScoreOf responseTime;
     nonverbalScore := nonverbalScoreOf facial;
     hasSpecificExamples := test reSpecificExamples trimmedAnswer;
     hasQuantifiableResults := test reQuantifiableResults trimmedAnswer;
     hasSTARStructure := test reSTARStructure trimmedAnswer;
     technicalTerms := countMatches reTechnicalTerms trimmedAnswer;
     hedges :=
       includes (lit "i dont know") (toLowerCase trimmedAnswer)
       || includes (lit "not sure") (toLowerCase trimmedAnswer);
     mostlyLowercase :=
       Qlt_bool (inject_Z wordCount * (8 # 10))
                (inject_Z (count (fun word => JsString.eqb word (toLowerCase word))
                                 (splitChar 32 trimmedAnswer))) |}.

(** The sum of the four components and the quality bonuses. *)
Definition earnedPoints (wordCount : Z) (f : Factors) : Z :=
  clarityScoreOf wordCount + structureScore f + timingScore f + nonverbalScore f
  + (if hasSpecificExamples f && (30 <=? wordCount) then 10 else 0)
  + (if hasQuantifiableResults f && (25 <=? wordCount) then 10 else 0)
  + (if hasSTARStructure f && (40 <=? wordCount) then 10 else 0)
  + (if (2 <=? technicalTerms f) && (35 <=? wordCount) then 5 else 0).

(** Penalties, caps and the final clamp, applied to the earned points. *)
Definition settle (wordCount : Z) (f : Factors) (totalScore : Z) : Z :=
  let totalScore := if hedges f then floorTimes07 totalScore else totalScore in
  let totalScore := if mostlyLowercase f then totalScore - 5 else totalScore in
  let totalScore :=
    if wordCount <? 20 then Z.min totalScore 35 else totalScore in
  let totalScore :=
    if (wordCount <? 30) && negb (hasSpecificExamples f)
    then Z.min totalScore 45 else totalScore in
  let totalScore :=
    if negb (hasSpecificExamples f) && negb (hasQuantifiableResults f)
       && negb (hasSTARStructure f)
    then Z.min totalScore 50 else totalScore in
  Z.max 0 (Z.min 100 totalScore).

Definition scoreFromFactors (wordCount : Z) (f : Factors) : Z :=
  settle wordCount f (earnedPoints wordCount f).

(** *** Sample transcripts (60 countable words each, no one-letter word) *)

Definition starAnswer : jsstring :=
  lit "Our online store was losing customers last year and the challenge was our slow checkout page. My task was to find out why people left before paying. The action we took was to rebuild the payment form, remove extra steps and test it with shoppers. The result was that we increased revenue by 20% in three months and complaints dropped.".

Definition starAnswerWithSituation : jsstring :=
  lit "Our online store was losing customers last year and the situation was our slow checkout page. My task was to find out why people left before paying. The action we took was to rebuild the payment form, remove extra steps and test it with shoppers. The result was that we increased revenue by 20% in three months and complaints dropped.".

Definition shortPlainAnswer : jsstring :=
  lit "We met the suppliers every week and we kept the whole team informed about each delivery date.".




(** A host whose [toLowerCase] maps [A-Z] to [a-z] and leaves every other
    code unit alone: what [String.prototype.toLowerCase] does on a string
    of ASCII code units. *)
Definition asciiToLowerCase (s : jsstring) : jsstring :=
  map (fun c => if inRange 65 90 c then (c + 32)%N else c) s.

(** The ranges of the three component scores. *)
Definition boundedFactors (f : Factors) : Prop :=
  0 <= structureScore f <= 20 /\ 0 <= timingScore f <= 15
  /\ 0 <= nonverbalScore f <= 15.

End Scorer.

(* ------------------------------------------------------------------ *)
(** ** The cumulative score: merge step and skip handler *)

Module Score.

Record InterviewScore : Type := {
  totalScore : Q;
  questionsAnswered : nat;
  questionsSkipped : nat;
  averageResponseTime : Q;
  confidence : Q;
  engagement : Q;
  eyeContact : Q;
  communication : Q
}.

Definition MAX_QUESTIONS : nat := 5.

(** The initial value of the [interviewScore] state. *)
Definition initialScore : InterviewScore :=
  {| totalScore := 0;
     questionsAnswered := 0;
     questionsSkipped := 0;
     averageResponseTime := 0;
     confidence := 5 # 10;
     engagement := 5 # 10;
     eyeContact := 5 # 10;
     communication := 5 # 10 |}.

Definition ofNat (n : nat) : Q := inject_Z (Z.of_nat n).

(** The state updater of [updateScoreWithEvaluation], for the evaluation
    score [score] (already defaulted by [evaluation.score || 0]). *)
Definition mergeScore (score responseTime : Q) (prev : InterviewScore)
  : InterviewScore :=
  let newQuestionsAnswered := S (questionsAnswered prev) in
  let questionValue := (score * (20 # 100))%Q in
  let newTotalScore := (totalScore prev + questionValue)%Q in
  {| totalScore := newTotalScore;
     questionsAnswered := newQuestionsAnswered;
     questionsSkipped := questionsSkipped prev;
     averageResponseTime :=
       ((averageResponseTime prev * ofNat (questionsAnswered prev)
         + responseTime) / ofNat newQuestionsAnswered)%Q;
     confidence := confidence prev;
     engagement := engagement prev;
     eyeContact := eyeContact prev;
     communication := communication prev |}.

(** The cascade of [calculateSkipPenalty] on the skip rate. *)
Definition penaltyOfRate (skipRate : Q) : Q :=
  if Qle_bool (8 # 10) skipRate then 50
  else if Qle_bool (6 # 10) skipRate then 40
  else if Qle_bool (4 # 10) skipRate then 30
  else if Qle_bool (2 # 10) skipRate then 20
  else 12.

(** [totalSkips / totalQuestions] is [NaN] or [Infinity] when
    [totalQuestions] is 0: every comparison with [NaN] is false, and
    [Infinity] passes the first one. *)
Definition calculateSkipPenalty (totalSkips totalQuestions : nat) : Q :=
  match totalQuestions with
  | O => match totalSkips with O => 12 | S _ => 50 end
  | S _ => penaltyOfRate (ofNat totalSkips / ofNat totalQuestions)
  end.

(** The skip rate computed inside the updater of [skipQuestion]; its
    denominator counts the skip itself and is never 0. *)
Definition skipRateAfter (prev : InterviewScore) : Q :=
  (ofNat (S (questionsSkipped prev))
   / ofNat (questionsAnswered prev + S (questionsSkipped prev)))%Q.

(** The state updater of [skipQuestion]. *)
Definition skipScore (prev : InterviewScore) : InterviewScore :=
  let newQuestionsSkipped := S (questionsSkipped prev) in
  let newTotalQuestions := (questionsAnswered prev + newQuestionsSkipped)%nat in
  let skipPenalty := calculateSkipPenalty newQuestionsSkipped newTotalQuestions in
  let newTotalScore := Qmax 0 (totalScore prev - skipPenalty) in
  let skipRate := (ofNat newQuestionsSkipped / ofNat newTotalQuestions)%Q in
  let newTotalScore :=
    if Qle_bool (6 # 10) skipRate then Qmin newTotalScore 15
    else if Qle_bool (4 # 10) skipRate then Qmin newTotalScore 35
    else newTotalScore in
  {| totalScore := newTotalScore;
     questionsAnswered := questionsAnswered prev;
     questionsSkipped := newQuestionsSkipped;
     averageResponseTime := averageResponseTime prev;
     confidence := Qmax (5 # 100) (confidence prev - (25 # 100));
     engagement := Qmax (5 # 100) (engagement prev - (20 # 100));
     eyeContact := eyeContact prev;
     communication := Qmax (5 # 100) (communication prev - (15 # 100)) |}.

(** [Number(x.toFixed(3))]: the nearest multiple of 1/1000, a tie going
    away from zero. *)
Definition toFixed3 (x : Q) : Q :=
  if Qle_bool 0 x then (Qfloor (x * 1000 + (1 # 2)) # 1000)%Q
  else (- Qfloor (- x * 1000 + (1 # 2)) # 1000)%Q.

(** The updater of the facial handler, on the running averages. *)
Definition withAverages (avgConfidence avgEngagement avgEyeContact : Q)
           (prev : InterviewScore) : InterviewScore :=
  {| totalScore := totalScore prev;
     questionsAnswered := questionsAnswered prev;
     questionsSkipped := questionsSkipped prev;
     averageResponseTime := averageResponseTime prev;
     confidence := toFixed3 avgConfidence;
     engagement := toFixed3 avgEngagement;
     eyeContact := toFixed3 avgEyeContact;
     communication := communication prev |}.

End Score.

(* ------------------------------------------------------------------ *)
(** ** The session component: state, handlers and transitions *)

Module Session.

Import Telemetry Score.

(** The outcome of a [fetch] followed by [response.json()]: the promise
    rejects (network error, aborted or timed-out request), or a response
    with a status arrives whose body parses ([Some]) or not ([None]). *)
Inductive FetchResult (A : Type) : Type :=
| Rejected
| Responded (status : Z) (body : option A).
Arguments Rejected {A}.
Arguments Responded {A} _ _.

(** [response.ok] *)
Definition responseOk (status : Z) : bool :=
  (200 <=? status) && (status <=? 299).

(** An evaluation object as the merge step reads it ([evaluation: any]):
    the score may be absent. *)
Record AnyEvaluation : Type := {
  score : option Q;
  feedback : string;
  strengths : list string;
  improvements : list string
}.

Definition ofLocal (e : Scorer.Evaluation) : AnyEvaluation :=
  {| score := Some (inject_Z (Scorer.score e));
     feedback := Scorer.feedback e;
     strengths := Scorer.strengths e;
     improvements := Scorer.improvements e |}.

Definition VoiceData : Type := list (string * Q).

Record ResponseRecord : Type := {
  r_question : option string;
  r_answer : jsstring;
  r_score : Q;
  r_duration : Q;
  r_timestamp : Z
}.

Record AnalysisHistory : Type := {
  facial : list (Entry FacialData);
  voice : list (Entry VoiceData);
  responses : list ResponseRecord
}.

Inductive Timer : Type :=
| EndInterviewIn (ms : Z)
| GenerateNewQuestionIn (ms : Z).

(** The component state the modelled code reads and writes.  A question
    is [None] when the state holds [undefined]; [alerts] are the
    [alert(...)] dialogs shown so far and [timers] the pending
    [setTimeout] callbacks; [ended] is set by [endInterview]. *)
Record State : Type := {
  currentQuestion : option string;
  isRecording : bool;
  isRecordingRef : bool;
  isListening : bool;
  currentAnswer : jsstring;
  audioChunks : list N;
  mediaRecorderRecording : bool;
  interviewStarted : bool;
  questionStartTime : option Z;
  currentQuestionNumber : Z;
  facialAnalysisData : option FacialData;
  voiceAnalysisData : option VoiceData;
  analysisHistory : AnalysisHistory;
  interviewScore : InterviewScore;
  alerts : list string;
  timers : list Timer;
  ended : bool
}.

Definition initialState : State :=
  {| currentQuestion := Some "";
     isRecording := false;
     isRecordingRef := false;
     isListening := false;
     currentAnswer := [];
     audioChunks := [];
     mediaRecorderRecording := false;
     interviewStarted := false;
     questionStartTime := None;
     currentQuestionNumber := 0;
     facialAnalysisData := None;
     voiceAnalysisData := None;
     analysisHistory := {| facial := []; voice := []; responses := [] |};
     interviewScore := initialScore;
     alerts := [];
     timers := [];
     ended := false |}.

(** *** Field updates *)

Definition setHistory (h : AnalysisHistory) (st : State) : State :=
  {| currentQuestion := currentQuestion st; isRecording := isRecording st;
     isRecordingRef := isRecordingRef st; isListening := isListening st;
     currentAnswer := currentAnswer st; audioChunks := audioChunks st;
     mediaRecorderRecording := mediaRecorderRecording st;
     interviewStarted := interviewStarted st;
     questionStartTime := questionStartTime st;
     currentQuestionNumber := currentQuestionNumber st;
     facialAnalysisData := facialAnalysisData st;
     voiceAnalysisData := voiceAnalysisData st;
     analysisHistory := h;
     interviewScore := interviewScore st;
     alerts := alerts st; timers := timers st; ended := ended st |}.

Definition setInterviewScore (s : InterviewScore) (st : State) : State :=
  {| currentQuestion := currentQuestion st; isRecording := isRecording st;
     isRecordingRef := isRecordingRef st; isListening := isListening st;
     currentAnswer := currentAnswer st; audioChunks := audioChunks st;
     mediaRecorderRecording := mediaRecorderRecording st;
     interviewStarted := interviewStarted st;
     questionStartTime := questionStartTime st;
     currentQuestionNumber := currentQuestionNumber st;
     facialAnalysisData := facialAnalysisData st;
     voiceAnalysisData := voiceAnalysisData st;
     analysisHistory := analysisHistory st;
     interviewScore := s;
     alerts := alerts st; timers := timers st; ended := ended st |}.

Definition setTelemetryData (f : option FacialData) (v : option VoiceData)
           (st : State) : State :=
  {| currentQuestion := currentQuestion st; isRecording := isRecording st;
     isRecordingRef := isRecordingRef st; isListening := isListening st;
     currentAnswer := currentAnswer st; audioChunks := audioChunks st;
     mediaRecorderRecording := mediaRecorderRecording st;
     interviewStarted := interviewStarted st;
     questionStartTime := questionStartTime st;
     currentQuestionNumber := currentQuestionNumber st;
     facialAnalysisData := f;
     voiceAnalysisData := v;
     analysisHistory := analysisHistory st;
     interviewScore := interviewScore st;
     alerts := alerts st; timers := timers st; ended := ended st |}.

(** Recording flags, transcript, chunks and recorder together. *)
Definition setRecording (rec ref listening : bool) (answer : jsstring)
           (chunks : list N) (recorder : bool) (st : State) : State :=
  {| currentQuestion := currentQuestion st; isRecording := rec;
     isRecordingRef := ref; isListening := listening;
     currentAnswer := answer; audioChunks := chunks;
     mediaRecorderRecording := recorder;
     interviewStarted := interviewStarted st;
     questionStartTime := questionStartTime st;
     currentQuestionNumber := currentQuestionNumber st;
     facialAnalysisData := facialAnalysisData st;
     voiceAnalysisData := voiceAnalysisData st;
     analysisHistory := analysisHistory st;
     interviewScore := interviewScore st;
     alerts := alerts st; timers := timers st; ended := ended st |}.

Definition setQuestion (q : option string) (started : bool)
           (start : option Z) (number : Z) (st : State) : State :=
  {| currentQuestion := q; isRecording := isRecording st;
     isRecordingRef := isRecordingRef st; isListening := isListening st;
     currentAnswer := currentAnswer st; audioChunks := audioChunks st;
     mediaRecorderRecording := mediaRecorderRecording st;
     interviewStarted := started;
     questionStartTime := start;
     currentQuestionNumber := number;
     facialAnalysisData := facialAnalysisData st;
     voiceAnalysisData := voiceAnalysisData st;
     analysisHistory := analysisHistory st;
     interviewScore := interviewScore st;
     alerts := alerts st; timers := timers st; ended := ended st |}.

Definition setEffects (a : list string) (t : list Timer) (e : bool)
           (st : State) : State :=
  {| currentQuestion := currentQuestion st; isRecording := isRecording st;
     isRecordingRef := isRecordingRef st; isListening := isListening st;
     currentAnswer := currentAnswer st; audioChunks := audioChunks st;
     mediaRecorderRecording := mediaRecorderRecording st;
     interviewStarted := interviewStarted st;
     questionStartTime := questionStartTime st;
     currentQuestionNumber := currentQuestionNumber st;
     facialAnalysisData := facialAnalysisData st;
     voiceAnalysisData := voiceAnalysisData st;
     analysisHistory := analysisHistory st;
     interviewScore := interviewScore st;
     alerts := a; timers := t; ended := e |}.

Definition alert (msg : string) (st : State) : State :=
  setEffects (alerts st ++ [msg]) (timers st) (ended st) st.

Definition setTimeout (t : Timer) (st : State) : State :=
  setEffects (alerts st) (timers st ++ [t]) (ended st) st.

(** *** Telemetry handlers ([setOnFacialAnalysis], [setOnVoiceAnalysis]) *)

Definition onFacialAnalysis (now : Z) (d : FacialData) (st : State) : State :=
  let st := setTelemetryData (Some d) (voiceAnalysisData st) st in
  let prev := analysisHistory st in
  let st :=
    setHistory
      {| facial := sliceLast 50 (facial prev ++ [{| timestamp := now; data := d |}]);
         voice := voice prev;
         responses := responses prev |} st in
  let recentFacial := sliceLast 20 (facial (analysisHistory st)) in
  if (0 <? List.length recentFacial)%nat then
    let avg f := average (fun e => f (data e)) recentFacial in
    setInterviewScore
      (withAverages (avg Telemetry.confidence) (avg Telemetry.engagement)
                    (avg Telemetry.eye_contact) (interviewScore st)) st
  else st.

Definition onVoiceAnalysis (d : VoiceData) (st : State) : State :=
  setTelemetryData (facialAnalysisData st) (Some d) st.

(** *** Speech recognition: the [onresult] handler, for the concatenated
    final transcripts of the event. *)
Definition onresult (finalTranscript : jsstring) (st : State) : State :=
  match finalTranscript with
  | [] => st
  | _ :: _ =>
      let prev := currentAnswer st in
      let newAnswer :=
        prev ++ (match prev with [] => [] | _ :: _ => lit " " end)
             ++ trim finalTranscript in
      setRecording (isRecording st) (isRecordingRef st) (isListening st)
                   newAnswer (audioChunks st) (mediaRecorderRecording st) st
  end.

(** *** Question issuance *)

(** [endInterview]: the flags it resets and the hand-off (the packaging
    of the summary is not part of the model). *)
Definition endInterview (st : State) : State :=
  setEffects (alerts st) (timers st) true
    (setRecording false (isRecordingRef st) false (currentAnswer st)
                  (audioChunks st) (mediaRecorderRecording st) st).

Definition fallbackQuestions (jobRole : string) : list string :=
  [String.append "Tell me about a challenging situation in your "
     (String.append jobRole " experience and how you handled it.");
   String.append "What has been your most significant achievement relevant to the "
     (String.append jobRole " role?");
   String.append "How do you stay current with developments in your field as a "
     (String.append jobRole "?");
   "Describe a time you had to collaborate cross-functionally to deliver a project. What was your approach?";
   String.append "Where do you see yourself growing in the next 2 years in the "
     (String.append jobRole " space?")].

(** [array[i]] for an integer index: [undefined] ([None]) outside the
    array, in particular at a negative index. *)
Definition arrayAt {A} (l : list A) (i : Z) : option A :=
  if i <? 0 then None else nth_error l (Z.to_nat i).

(** The index expression of the [catch] branch; [%] is the remainder
    with the sign of the dividend ([Z.rem]). *)
Definition fallbackIndex (jobRole : string) (currentQuestionNumber : Z) : Z :=
  Z.rem (currentQuestionNumber - 1)
        (Z.of_nat (List.length (fallbackQuestions jobRole))).

(** A handler reads the state variables of the render it was created in
    and writes through the setters.  Where a handler can run later than
    that render (a timer callback, the continuation of an [await]), it
    takes two states: [seen], the state of the render it closes over, and
    [st], the live state its updates apply to.  A handler called straight
    from a click runs on the current render, and takes one state. *)

(** [generateNewQuestion].  The body of a question response is its
    [question] field, [None] when the field is missing.  The guard and
    the fallback index read [currentQuestionNumber] of the closure; the
    increment is the functional update [prev => prev + 1] of the live
    counter. *)
Definition generateNewQuestion (jobRole : string)
           (r : FetchResult (option string)) (now : Z) (seen st : State)
  : State :=
  if Z.of_nat MAX_QUESTIONS <=? currentQuestionNumber seen then endInterview st
  else
    let n := currentQuestionNumber seen in
    let fallbackQ := arrayAt (fallbackQuestions jobRole) (fallbackIndex jobRole n) in
    let issue q :=
      setQuestion q (interviewStarted st) (Some now)
                  (currentQuestionNumber st + 1) st in
    match r with
    | Responded status (Some (Some q)) =>
        if responseOk status then issue (Some q) else issue fallbackQ
    | _ => issue fallbackQ
    end.

Definition startInterview (jobRole : string)
           (r : FetchResult (option string)) (now later : Z) (st : State)
  : State :=
  generateNewQuestion jobRole r later st
    (setQuestion (currentQuestion st) true (Some now)
                 (currentQuestionNumber st) st).

(** *** Recording *)

(** What [getUserMedia] and the recorder set-up do: the microphone is
    obtained (and speech recognition then starts or throws), or access
    fails. *)
Inductive MediaOutcome : Type :=
| MicrophoneGranted (recognitionStarts : bool)
| MicrophoneDenied.

Definition microphoneAlert : string :=
  "Unable to access microphone. Please check your browser permissions.".

(** [recorder.ondataavailable], for a chunk of [size] bytes. *)
Definition ondataavailable (size : N) (st : State) : State :=
  if (0 <? size)%N then
    setRecording (isRecording st) (isRecordingRef st) (isListening st)
                 (currentAnswer st) (audioChunks st ++ [size])
                 (mediaRecorderRecording st) st
  else st.

Definition startRecording (m : MediaOutcome) (st : State) : State :=
  let st :=
    setRecording true true (isListening st) [] [] (mediaRecorderRecording st) st in
  match m with
  | MicrophoneGranted starts =>
      setRecording true true (if starts then isListening st else false)
                   (currentAnswer st) (audioChunks st) true st
  | MicrophoneDenied =>
      alert microphoneAlert
        (setRecording false false (isListening st) (currentAnswer st)
                      (audioChunks st) (mediaRecorderRecording st) st)
  end.

(** *** Evaluation, merge and advance *)

Definition responseTimeAt (now : Z) (st : State) : Q :=
  match questionStartTime st with
  | Some start => (inject_Z (now - start) / 1000)%Q
  | None => 0%Q
  end.

(** [updateScoreWithEvaluation].  [stamp] is the [Date.now()] of the
    record; question and answer of the record are those of the closure,
    history and score are updated functionally. *)
Definition updateScoreWithEvaluation (evaluation : AnyEvaluation)
           (responseTime : Q) (stamp : Z) (seen st : State) : State :=
  let score := orZero (score evaluation) in
  let prev := analysisHistory st in
  let st :=
    setHistory
      {| facial := facial prev;
         voice := voice prev;
         responses :=
           responses prev
           ++ [{| r_question := currentQuestion seen;
                  r_answer := trim (currentAnswer seen);
                  r_score := score;
                  r_duration := responseTime;
                  r_timestamp := stamp |}] |} st in
  setInterviewScore (mergeScore score responseTime (interviewScore st)) st.

(** [seen] is the [interviewScore] of the render the handler closes
    over, i.e. the score before the merge. *)
Definition proceedToNextStep (seen : InterviewScore) (st : State) : State :=
  let st :=
    setRecording (isRecording st) (isRecordingRef st) (isListening st)
                 [] [] (mediaRecorderRecording st) st in
  let totalQuestions :=
    (questionsAnswered seen + 1 + questionsSkipped seen)%nat in
  if (MAX_QUESTIONS <=? totalQuestions)%nat
  then setTimeout (EndInterviewIn 2000) st
  else setTimeout (GenerateNewQuestionIn 2000) st.

Section WithHost.

Variable toLowerCase : jsstring -> jsstring.

(** The local evaluation, on the facial history and the question of
    the closure [st]. *)
Definition localScore (rnd : Q) (st : State) (transcript : jsstring)
           (responseTime : Q) : AnyEvaluation :=
  ofLocal (Scorer.calculateRealisticScore toLowerCase rnd
             (facial (analysisHistory st)) transcript responseTime
             (currentQuestion st)).

(** [processTranscriptOnly]: [now] is its [new Date()] and [stamp] the
    [Date.now()] of the record. *)
Definition processTranscriptOnly (rnd : Q) (now stamp : Z) (seen st : State)
  : State :=
  let responseTime := responseTimeAt now seen in
  let evaluation := localScore rnd seen (currentAnswer seen) responseTime in
  proceedToNextStep (interviewScore seen)
    (updateScoreWithEvaluation evaluation responseTime stamp seen st).

(** [evaluateResponse], on the closure [st]: the body of the remote
    answer is the parsed JSON value, [None] for [null]; the result is that
    value, or the local evaluation from the [catch] branch. *)
Definition evaluateResponse (remote : FetchResult (option AnyEvaluation))
           (rnd : Q) (st : State) (transcript : jsstring)
           (responseTime : Q) : option AnyEvaluation :=
  match remote with
  | Responded status (Some evaluation) =>
      if responseOk status then evaluation
      else Some (localScore rnd st transcript responseTime)
  | _ => Some (localScore rnd st transcript responseTime)
  end.

(** [processAudioAndTranscript], run from the timer set by
    [stopRecording]: [seen] is the render of the Stop click.  [now] is the
    [new Date()] at the start of the handler and [stamp] the [Date.now()]
    of the record, read after both requests have settled; [later] and
    [laterStamp] are the two clocks of [processTranscriptOnly] when the
    [catch] branch runs it.  All updates happen after the requests, on the
    live state. *)
Definition processAudioAndTranscript (voiceFetch : FetchResult VoiceData)
           (remote : FetchResult (option AnyEvaluation))
           (rnd : Q) (now stamp later laterStamp : Z) (seen st : State)
  : State :=
  match audioChunks seen, trim (currentAnswer seen) with
  | [], [] => st
  | chunks, _ =>
      let responseTime := responseTimeAt now seen in
      let voiceThrows :=
        match chunks, voiceFetch with
        | _ :: _, Rejected => true
        | _ :: _, Responded status None => responseOk status
        | _, _ => false
        end in
      if voiceThrows then processTranscriptOnly rnd later laterStamp seen st
      else
        match evaluateResponse remote rnd seen (currentAnswer seen)
                responseTime with
        | Some evaluation =>
            proceedToNextStep (interviewScore seen)
              (updateScoreWithEvaluation evaluation responseTime stamp seen st)
        | None => processTranscriptOnly rnd later laterStamp seen st
        end
  end.

End WithHost.

(** *** Skipping *)

Definition skipQuestion (jobRole : string)
           (r : FetchResult (option string)) (now later : Z) (st : State)
  : State :=
  let closure := st in
  let seen := interviewScore st in
  let prev := analysisHistory st in
  let st :=
    setHistory
      {| facial := facial prev;
         voice := voice prev;
         responses :=
           responses prev
           ++ [{| r_question := currentQuestion st;
                  r_answer := lit "[SKIPPED]";
                  r_score := 0;
                  r_duration := 0;
                  r_timestamp := now |}] |} st in
  let st := setInterviewScore (skipScore (interviewScore st)) st in
  let totalQuestions :=
    (questionsAnswered seen + questionsSkipped seen + 1)%nat in
  if (MAX_QUESTIONS <=? totalQuestions)%nat
  then setTimeout (EndInterviewIn 1000) st
  else generateNewQuestion jobRole r later closure st.

(** *** Runs of events and sample states *)

(** The merges of a run of answered questions, in order: each element is
    the evaluation, the response time and the clock of one call of
    [updateScoreWithEvaluation], each on the current render. *)
Definition mergeAll (es : list (AnyEvaluation * Q * Z)) (st : State) : State :=
  fold_left
    (fun st e =>
       updateScoreWithEvaluation (fst (fst e)) (snd (fst e)) (snd e) st st)
    es st.

Definition scoreOf (e : AnyEvaluation * Q * Z) : Q :=
  orZero (score (fst (fst e))).

(** A remote evaluation whose score field is [v]. *)
Definition remoteEvaluation (v : Q) : AnyEvaluation :=
  {| score := Some v; feedback := "";
     strengths := []; improvements := [] |}.

Definition entryOf {D} (s : Z * D) : Entry D :=
  {| timestamp := fst s; data := snd s |}.

(** The facial events of a run, each with the clock at its arrival. *)
Definition ingestFacial (samples : list (Z * FacialData)) (st : State) : State :=
  fold_left (fun st s => onFacialAnalysis (fst s) (snd s) st) samples st.

Definition ingestVoice (samples : list VoiceData) (st : State) : State :=
  fold_left (fun st d => onVoiceAnalysis d st) samples st.

(** The remote evaluation call fails: the request rejects (network
    error, timed-out or aborted request), the status is not 2xx, or the
    body of a 2xx response does not parse. *)
Definition fetchFailed {A} (r : FetchResult A) : bool :=
  match r with
  | Rejected => true
  | Responded status None => true
  | Responded status (Some _) => negb (responseOk status)
  end.

(** The handler reaches the evaluation call: there is something to
    process and the voice-analysis request before it did not throw. *)
Definition reachesEvaluation (voiceFetch : FetchResult VoiceData)
           (st : State) : bool :=
  match audioChunks st with
  | [] => match trim (currentAnswer st) with [] => false | _ :: _ => true end
  | _ :: _ =>
      match voiceFetch with
      | Rejected => false
      | Responded status None => negb (responseOk status)
      | Responded _ (Some _) => true
      end
  end.

(** A state that holds a transcript while not recording: the recogniser
    delivered a final result (as it does after [stop()]) once the answer
    had been handled. *)
Definition lateTranscript : State :=
  onresult (lit "hello")
    (startInterview "Software Developer" (Responded 200 (Some (Some "Why?")))
       0 1 initialState).

(** A session with a question pending and a spoken answer, no audio
    chunk collected. *)
Definition answering : State :=
  onresult (lit "I led the migration project and reduced costs")
    (startInterview "Software Developer" (Responded 200 (Some (Some "Why?")))
       0 1000 initialState).

(** A session that is recording an answer: the microphone was granted,
    the recogniser delivered a final result and the recorder one chunk. *)
Definition recorded : State :=
  ondataavailable 2048
    (onresult (lit "I led the migration project and reduced costs")
       (startRecording (MicrophoneGranted true)
          (startInterview "Software Developer"
             (Responded 200 (Some (Some "Why?"))) 0 1000 initialState))).

End Session.

(* ------------------------------------------------------------------ *)
(** ** Question parameters: [getQuestionCategory], [getDifficulty] *)

Module Issuance.

Import Session.

(** The own properties of [roleBasedCategories], in source order. *)
Definition roleBasedCategories : list (string * list string) :=
  [("Software Developer", ["behavioral"; "technical"; "problem-solving"; "technical"; "behavioral"]);
   ("Data Scientist", ["behavioral"; "analytical"; "technical"; "project-based"; "behavioral"]);
   ("DevOps Engineer", ["behavioral"; "technical"; "problem-solving"; "technical"; "behavioral"]);
   ("Frontend Developer", ["behavioral"; "technical"; "design-thinking"; "technical"; "behavioral"]);
   ("Backend Developer", ["behavioral"; "technical"; "system-design"; "technical"; "behavioral"]);
   ("Full Stack Developer", ["behavioral"; "technical"; "problem-solving"; "technical"; "behavioral"]);
   ("Product Manager", ["behavioral"; "strategic"; "stakeholder-management"; "leadership"; "behavioral"]);
   ("Project Manager", ["behavioral"; "organizational"; "leadership"; "conflict-resolution"; "behavioral"]);
   ("Business Analyst", ["behavioral"; "analytical"; "stakeholder-management"; "process-improvement"; "behavioral"]);
   ("Marketing Manager", ["behavioral"; "strategic"; "creative-thinking"; "leadership"; "behavioral"]);
   ("Sales Manager", ["behavioral"; "relationship-building"; "negotiation"; "leadership"; "behavioral"]);
   ("UX Designer", ["behavioral"; "design-thinking"; "user-research"; "creative-problem-solving"; "behavioral"]);
   ("UI Designer", ["behavioral"; "design-thinking"; "visual-design"; "creative-problem-solving"; "behavioral"]);
   ("Graphic Designer", ["behavioral"; "creative-thinking"; "project-management"; "client-communication"; "behavioral"]);
   ("HR Manager", ["behavioral"; "people-management"; "conflict-resolution"; "policy-implementation"; "behavioral"]);
   ("Customer Success", ["behavioral"; "relationship-building"; "problem-solving"; "communication"; "behavioral"]);
   ("Operations Manager", ["behavioral"; "process-improvement"; "leadership"; "problem-solving"; "behavioral"]);
   ("Financial Analyst", ["behavioral"; "analytical"; "attention-to-detail"; "strategic-thinking"; "behavioral"]);
   ("Accountant", ["behavioral"; "analytical"; "compliance"; "attention-to-detail"; "behavioral"]);
   ("default", ["behavioral"; "situational"; "problem-solving"; "leadership"; "behavioral"])].

(** The property names an object literal inherits from
    [Object.prototype]: a role of that name finds a function (or the
    prototype object) instead of a category array. *)
Definition objectPrototypeKeys : list string :=
  ["constructor"; "hasOwnProperty"; "isPrototypeOf"; "propertyIsEnumerable";
   "toLocaleString"; "toString"; "valueOf"; "__proto__";
   "__defineGetter__"; "__defineSetter__"; "__lookupGetter__";
   "__lookupSetter__"].

Fixpoint ownProperty {A} (key : string) (table : list (string * A)) : option A :=
  match table with
  | [] => None
  | (k, v) :: table' => if String.eqb key k then Some v else ownProperty key table'
  end.

(** [roleBasedCategories[jobRole] || roleBasedCategories['default']]:
    [Some] array, or [None] for an inherited, non-array value (indexing it
    with a number gives [undefined]). *)
Definition categoriesFor (jobRole : string) : option (list string) :=
  match ownProperty jobRole roleBasedCategories with
  | Some categories => Some categories
  | None =>
      if existsb (String.eqb jobRole) objectPrototypeKeys then None
      else ownProperty "default" roleBasedCategories
  end.

Definition getQuestionCategory (jobRole : string) (questionNumber : Z)
  : option string :=
  match categoriesFor jobRole with
  | Some categories =>
      arrayAt categories
              (Z.rem (questionNumber - 1) (Z.of_nat (List.length categories)))
  | None => None
  end.

Definition getDifficulty (questionNumber : Z) : string :=
  if questionNumber <=? 2 then "easy"
  else if questionNumber <=? 4 then "medium"
  else "hard".

(** The order of the three difficulty levels. *)
Definition difficultyRank (d : string) : Z :=
  if String.eqb d "easy" then 0
  else if String.eqb d "medium" then 1
  else if String.eqb d "hard" then 2
  else -1.

(** [category] and [difficulty] of the request body built by
    [generateNewQuestion]; both are computed from the
    [currentQuestionNumber] of the closure. *)
Definition requestParameters (jobRole : string) (st : State)
  : option string * string :=
  (getQuestionCategory jobRole (currentQuestionNumber st),
   getDifficulty (currentQuestionNumber st)).

End Issuance.

(* ------------------------------------------------------------------ *)
(** ** End-of-session statistics: the helpers of [endInterview] *)

Module Metrics.

(** [values.reduce((sum, val) => sum + val, 0)] *)
Definition sum (values : list Q) : Q := fold_left Qplus values 0%Q.

Definition lengthQ {A} (l : list A) : Q := inject_Z (Z.of_nat (List.length l)).

(** Numbers are exact rationals here, where the code computes in
    doubles: a result of the code can differ from the exact one in its
    last bits (the variance of three times 0.7 is 1.2e-32 there, not 0),
    while it is a number, and of the same sign, whenever the exact one
    is. *)

(** [calculateVariance]; the quotient is [NaN] ([None]) for no value. *)
Definition calculateVariance (values : list Q) : option Q :=
  match values with
  | [] => None
  | _ :: _ =>
      let mean := (sum values / lengthQ values)%Q in
      Some (fold_left (fun acc val => acc + (val - mean) * (val - mean)) values 0
            / lengthQ values)%Q
  end.

(** [calculateConsistency]; [None] stands for [NaN]. *)
Definition calculateConsistency (scores : list Q) : option Q :=
  if (List.length scores <? 2)%nat then Some 100%Q
  else
    match calculateVariance scores with
    | Some variance => Some (Qmax 0 (100 - variance * 2))
    | None => None
    end.

End Metrics.

(* ------------------------------------------------------------------ *)
(** ** Stopping a recording and runs of handler calls *)

Module Run.

Import Score Session.

Section WithHost.

Variable toLowerCase : jsstring -> jsstring.

(** [stopRecording], from the Stop click.  The second component tells
    whether [processAudioAndTranscript] was scheduled (after 500 ms, on
    the closure of this click); stopping the recorder leaves it inactive. *)
Definition stopRecording (rnd : Q) (now stamp : Z) (st : State) : State * bool :=
  let stopped :=
    setRecording false false false (currentAnswer st) (audioChunks st)
                 false st in
  if mediaRecorderRecording st then (stopped, true)
  else
    match trim (currentAnswer st) with
    | _ :: _ =>
        (processTranscriptOnly toLowerCase rnd now stamp st stopped, false)
    | [] => (stopped, false)
    end.

(** The handler calls and callbacks of a session, with what the
    environment contributes to each.  The clicks (start, start and stop
    recording, skip) run on the current render.  The timer for the next
    question and the continuation that processes an answer run on the
    render that scheduled them: the event carries that state, [seen].  A
    run puts no condition on [seen], so what holds of every run holds of
    the runs in which it is an earlier state of the session. *)
Inductive Event : Type :=
| StartInterview (r : FetchResult (option string)) (now later : Z)
| NextQuestion (r : FetchResult (option string)) (now : Z) (seen : State)
| FacialAnalysis (now : Z) (d : Telemetry.FacialData)
| VoiceAnalysis (d : VoiceData)
| SpeechResult (finalTranscript : jsstring)
| AudioChunk (size : N)
| BeginRecording (m : MediaOutcome)
| EndRecording (rnd : Q) (now stamp : Z)
| ProcessAudio (voiceFetch : FetchResult VoiceData)
               (remote : FetchResult (option AnyEvaluation))
               (rnd : Q) (now stamp later laterStamp : Z) (seen : State)
| SkipQuestion (r : FetchResult (option string)) (now later : Z)
| EndInterview.

Definition step (jobRole : string) (st : State) (e : Event) : State :=
  match e with
  | StartInterview r now later => startInterview jobRole r now later st
  | NextQuestion r now seen => generateNewQuestion jobRole r now seen st
  | FacialAnalysis now d => onFacialAnalysis now d st
  | VoiceAnalysis d => onVoiceAnalysis d st
  | SpeechResult f => onresult f st
  | AudioChunk size => ondataavailable size st
  | BeginRecording m => startRecording m st
  | EndRecording rnd now stamp => fst (stopRecording rnd now stamp st)
  | ProcessAudio voiceFetch remote rnd now stamp later laterStamp seen =>
      processAudioAndTranscript toLowerCase voiceFetch remote rnd
        now stamp later laterStamp seen st
  | SkipQuestion r now later => skipQuestion jobRole r now later st
  | EndInterview => endInterview st
  end.

(** Any interleaving of handler calls, from a given state. *)
Definition run (jobRole : string) (events : list Event) (st : State) : State :=
  fold_left (step jobRole) events st.

End WithHost.

(** The random value is one [Math.random()] can return, and a remote
    evaluation that is used carries a score between 0 and 100. *)
Definition scoreInRange (e : AnyEvaluation) : Prop :=
  (0 <= orZero (score e) <= 100)%Q.

Definition wellScored (e : Event) : Prop :=
  match e with
  | EndRecording rnd _ _ => (0 <= rnd < 1)%Q
  | ProcessAudio _ remote rnd _ _ _ _ _ =>
      (0 <= rnd < 1)%Q /\
      match remote with
      | Responded _ (Some (Some evaluation)) => scoreInRange evaluation
      | _ => True
      end
  | _ => True
  end.

Definition deniedRecordings (events : list Event) : nat :=
  List.length
    (filter (fun e => match e with BeginRecording MicrophoneDenied => true
                              | _ => false end) events).

End Run.

(* ------------------------------------------------------------------ *)
(** ** Predicates and sample data used by the statements below *)

Module Auxiliary.

Import Telemetry Score Session Run.

Definition hedgedAnswer : jsstring :=
  lit "Honestly we were not sure what the customers wanted so we asked them and then we changed the plan.".

Definition responseTimeOf (e : AnyEvaluation * Q * Z) : Q := snd (fst e).

Definition isDenied (e : Event) : bool :=
  match e with BeginRecording MicrophoneDenied => true | _ => false end.

Definition isFacial (e : Event) : bool :=
  match e with FacialAnalysis _ _ => true | _ => false end.

(** What a handler call does to the question records and the score:
    nothing, the bookkeeping of a skip, or the merge of an evaluation. *)
Inductive Outcome (st st' : State) (e : Event) : Prop :=
| NothingRecorded :
    responses (analysisHistory st') = responses (analysisHistory st) ->
    totalScore (interviewScore st') = totalScore (interviewScore st) ->
    questionsAnswered (interviewScore st') = questionsAnswered (interviewScore st) ->
    questionsSkipped (interviewScore st') = questionsSkipped (interviewScore st) ->
    (isFacial e = false -> interviewScore st' = interviewScore st) ->
    Outcome st st' e
| SkipRecorded :
    List.length (responses (analysisHistory st'))
    = S (List.length (responses (analysisHistory st))) ->
    interviewScore st' = skipScore (interviewScore st) ->
    Outcome st st' e
| AnswerRecorded (evaluation : AnyEvaluation) (responseTime : Q) :
    List.length (responses (analysisHistory st'))
    = S (List.length (responses (analysisHistory st))) ->
    interviewScore st'
    = mergeScore (orZero (score evaluation)) responseTime (interviewScore st) ->
    (wellScored e -> scoreInRange evaluation) ->
    Outcome st st' e.

Definition wellFormedCategories (categories : list string) : Prop :=
  List.length categories = 5%nat
  /\ nth_error categories 0 = Some "behavioral"
  /\ nth_error categories 4 = Some "behavioral".

Definition inUnit (x : Q) : Prop := (0 <= x <= 1)%Q.

(** The three metrics of a facial sample lie in [0, 1] (or are absent). *)
Definition goodData (d : FacialData) : Prop :=
  inUnit (orZero (Telemetry.confidence d))
  /\ inUnit (orZero (Telemetry.engagement d))
  /\ inUnit (orZero (Telemetry.eye_contact d)).

Definition goodTelemetry (e : Event) : Prop :=
  match e with FacialAnalysis _ d => goodData d | _ => True end.

Definition metricsInUnit (s : InterviewScore) : Prop :=
  inUnit (Score.confidence s) /\ inUnit (Score.engagement s)
  /\ inUnit (eyeContact s) /\ inUnit (communication s).

Definition goodHistory (st : State) : Prop :=
  Forall (fun e => goodData (data e)) (facial (analysisHistory st)).

(** A session up to the Stop click of an answer to question 4: the
    interview is started, three questions are skipped, an answer is
    recorded. *)
Definition beforeStop : list Event :=
  [StartInterview (Responded 200 (Some (Some "Why?"))) 0 1000;
   SkipQuestion Rejected 2000 2100;
   SkipQuestion Rejected 3000 3100;
   SkipQuestion Rejected 4000 4100;
   BeginRecording (MicrophoneGranted true);
   SpeechResult (lit "I led the migration project and reduced costs");
   AudioChunk 2048].

(** The state of the render in which Stop is clicked. *)
Definition stopClick : State :=
  run Scorer.asciiToLowerCase "Software Developer" beforeStop initialState.

(** Stop is clicked, which sets the timer for [processAudioAndTranscript]
    on that render; Skip is clicked before the evaluation has settled
    (the button is enabled once recording has stopped) and issues question
    5; the evaluation then merges the answer and, counting the questions
    of its own render, sets the timer for [generateNewQuestion]; that
    timer fires, still on the render of the Stop click. *)
Definition staleTimerRun : list Event :=
  beforeStop
  ++ [EndRecording (1 # 2) 20000 20000;
      SkipQuestion Rejected 20600 20700;
      ProcessAudio (Responded 200 (Some [])) Rejected (1 # 2)
                   20500 20900 20901 20902 stopClick;
      NextQuestion Rejected 22900 stopClick].



End Auxiliary.

(* ================================================================== *)
(** * Properties *)

(* ------------------------------------------------------------------ *)
(** ** Rational comparisons *)

Lemma Qlt_bool_true (x y : Q) : Qlt_bool x y = true <-> (x < y)%Q.
Proof.
  unfold Qlt_bool. rewrite negb_true_iff.
  split; intro H.
  - apply Qnot_le_lt. intro Hle. apply Qle_bool_iff in Hle. congruence.
  - destruct (Qle_bool y x) eqn:E; [|reflexivity].
    apply Qle_bool_iff in E. apply Qle_not_lt in E. contradiction.
Qed.

Lemma Qle_bool_false (x y : Q) : Qle_bool x y = false <-> (y < x)%Q.
Proof.
  rewrite <- Qlt_bool_true. unfold Qlt_bool.
  rewrite negb_true_iff. reflexivity.
Qed.

Lemma Qle_bool_true_of (x y : Q) : (x <= y)%Q -> Qle_bool x y = true.
Proof. apply Qle_bool_iff. Qed.

Lemma Qmin_le_r (x y : Q) : (Qmin x y <= y)%Q.
Proof. apply Q.le_min_r. Qed.

Lemma Qmax_ge_l (x y : Q) : (x <= Qmax x y)%Q.
Proof. apply Q.le_max_l. Qed.

(* ------------------------------------------------------------------ *)
(** ** The merge step *)

Module MergeFacts.

Import Score Session.

Lemma updateScore_total (e : AnyEvaluation) (rt : Q) (now : Z)
      (seen st : State) :
  totalScore (interviewScore (updateScoreWithEvaluation e rt now seen st))
  = (totalScore (interviewScore st) + orZero (Session.score e) * (20 # 100))%Q.
Proof. reflexivity. Qed.

Lemma updateScore_answered (e : AnyEvaluation) (rt : Q) (now : Z)
      (seen st : State) :
  questionsAnswered (interviewScore (updateScoreWithEvaluation e rt now seen st))
  = S (questionsAnswered (interviewScore st)).
Proof. reflexivity. Qed.

(** Each merge of a score of at most 100 adds at most 20 points. *)
Lemma mergeAll_total_bound (es : list (AnyEvaluation * Q * Z)) :
  Forall (fun e => (scoreOf e <= 100)%Q) es ->
  forall st : State,
    (totalScore (interviewScore (mergeAll es st))
     <= totalScore (interviewScore st) + 20 * inject_Z (Z.of_nat (List.length es)))%Q.
Proof.
  induction 1 as [|e es He _ IH]; intro st.
  - change (mergeAll [] st) with st.
    change (inject_Z (Z.of_nat (List.length (@nil (AnyEvaluation * Q * Z)))))
      with 0%Q.
    lra.
  - change (mergeAll (e :: es) st)
      with (mergeAll es (updateScoreWithEvaluation
                           (fst (fst e)) (snd (fst e)) (snd e) st st)).
    eapply Qle_trans; [apply IH|].
    rewrite updateScore_total.
    unfold scoreOf in He.
    replace (Z.of_nat (List.length (e :: es)))
      with (Z.of_nat (List.length es) + 1)%Z by (cbn [List.length]; lia).
    rewrite inject_Z_plus.
    change (inject_Z 1) with 1%Q.
    lra.
Qed.

Lemma mergeAll_answered (es : list (AnyEvaluation * Q * Z)) (st : State) :
  questionsAnswered (interviewScore (mergeAll es st))
  = (questionsAnswered (interviewScore st) + List.length es)%nat.
Proof.
  revert st. induction es as [|e es IH]; intro st.
  - cbn. lia.
  - change (mergeAll (e :: es) st)
      with (mergeAll es (updateScoreWithEvaluation
                           (fst (fst e)) (snd (fst e)) (snd e) st st)).
    rewrite IH, updateScore_answered. cbn [List.length]. lia.
Qed.

(** C1 (the code departs from the bound it documents): the merge adds
    [score * 0.20] for each answered question with no clamp, although its
    comment gives each question at most 20 points of a total of 100, and a
    remote evaluation is merged as received.  Five merged contributions
    whose evaluation score is 150 leave [totalScore] at 150, above 100. *)
Theorem merge_total_can_exceed_100 :
  let es := repeat (remoteEvaluation 150, 30%Q, 0%Z) MAX_QUESTIONS in
  List.length es = MAX_QUESTIONS /\
  ~ (totalScore (interviewScore (mergeAll es initialState)) <= 100)%Q.
Proof.
  split; [reflexivity|].
  intro H. vm_compute in H. apply H. reflexivity.
Qed.

(** The bound does hold of the merges whose evaluation scores are all at
    most 100, as those of the local scorer are. *)
Lemma merge_total_at_most_100 (es : list (AnyEvaluation * Q * Z)) :
  List.length es = MAX_QUESTIONS ->
  Forall (fun e => (scoreOf e <= 100)%Q) es ->
  (totalScore (interviewScore (mergeAll es initialState)) <= 100)%Q.
Proof.
  intros Hlen Hall.
  eapply Qle_trans; [apply (mergeAll_total_bound es Hall)|].
  rewrite Hlen. vm_compute. discriminate.
Qed.

Lemma merge_total_at_most_100_witness :
  (totalScore
     (interviewScore
        (mergeAll (repeat (remoteEvaluation 100, 30%Q, 0%Z) 5) initialState))
   <= 100)%Q.
Proof.
  apply merge_total_at_most_100.
  - reflexivity.
  - repeat constructor; vm_compute; discriminate.
Defined.

End MergeFacts.

(* ------------------------------------------------------------------ *)
(** ** The skip handler *)

Module SkipFacts.

Import Score Session.

Lemma penaltyOfRate_monotone (r1 r2 : Q) :
  (r1 <= r2)%Q -> (penaltyOfRate r1 <= penaltyOfRate r2)%Q.
Proof.
  intro H. unfold penaltyOfRate.
  destruct (Qle_bool (8 # 10) r1) eqn:A1; destruct (Qle_bool (8 # 10) r2) eqn:A2;
    destruct (Qle_bool (6 # 10) r1) eqn:B1; destruct (Qle_bool (6 # 10) r2) eqn:B2;
    destruct (Qle_bool (4 # 10) r1) eqn:C1; destruct (Qle_bool (4 # 10) r2) eqn:C2;
    destruct (Qle_bool (2 # 10) r1) eqn:D1; destruct (Qle_bool (2 # 10) r2) eqn:D2;
    try (vm_compute; discriminate);
    repeat match goal with
           | E : Qle_bool _ _ = true |- _ => apply Qle_bool_iff in E
           | E : Qle_bool _ _ = false |- _ => apply Qle_bool_false in E
           end; lra.
Qed.

(** The values of the step function. *)
Lemma penaltyOfRate_steps (r : Q) :
  ((8 # 10 <= r)%Q -> penaltyOfRate r = 50%Q) /\
  ((6 # 10 <= r)%Q -> (r < 8 # 10)%Q -> penaltyOfRate r = 40%Q) /\
  ((4 # 10 <= r)%Q -> (r < 6 # 10)%Q -> penaltyOfRate r = 30%Q) /\
  ((2 # 10 <= r)%Q -> (r < 4 # 10)%Q -> penaltyOfRate r = 20%Q) /\
  ((r < 2 # 10)%Q -> penaltyOfRate r = 12%Q).
Proof.
  unfold penaltyOfRate.
  destruct (Qle_bool (8 # 10) r) eqn:A; destruct (Qle_bool (6 # 10) r) eqn:B;
    destruct (Qle_bool (4 # 10) r) eqn:C; destruct (Qle_bool (2 # 10) r) eqn:D;
    repeat match goal with
           | E : Qle_bool _ _ = true |- _ => apply Qle_bool_iff in E
           | E : Qle_bool _ _ = false |- _ => apply Qle_bool_false in E
           end;
    repeat split; intros; try reflexivity; lra.
Qed.

Lemma skipScore_capped (prev : InterviewScore) :
  ((6 # 10 <= skipRateAfter prev)%Q -> (totalScore (skipScore prev) <= 15)%Q) /\
  ((4 # 10 <= skipRateAfter prev)%Q -> (totalScore (skipScore prev) <= 35)%Q).
Proof.
  unfold skipScore. cbn [totalScore].
  fold (skipRateAfter prev).
  destruct (Qle_bool (6 # 10) (skipRateAfter prev)) eqn:A;
    destruct (Qle_bool (4 # 10) (skipRateAfter prev)) eqn:B;
    repeat match goal with
           | E : Qle_bool _ _ = true |- _ => apply Qle_bool_iff in E
           | E : Qle_bool _ _ = false |- _ => apply Qle_bool_false in E
           end;
    split; intro H; try lra;
    try apply Qmin_le_r;
    try (eapply Qle_trans; [apply Qmin_le_r | lra]).
Qed.

(** The score a skip leaves in the session state is the updater applied
    to the score before it. *)
Lemma skipQuestion_score (jobRole : string) (r : FetchResult (option string))
      (now later : Z) (st : State) :
  interviewScore (skipQuestion jobRole r now later st)
  = skipScore (interviewScore st).
Proof.
  unfold skipQuestion.
  destruct (MAX_QUESTIONS <=? _)%nat; [reflexivity|].
  unfold generateNewQuestion.
  destruct (Z.of_nat MAX_QUESTIONS <=? _); [reflexivity|].
  destruct r as [|status [[q|]|]]; try reflexivity.
  destruct (responseOk status); reflexivity.
Qed.

(** C2: the skip penalty is the step function 50/40/30/20/12 of the skip
    rate (skips over questions so far), it is monotonically
    non-decreasing in the skip rate, and a skip whose resulting skip
    rate is at least 0.8 leaves [totalScore] at most 15 (the cap 15
    applies from 0.6, the cap 35 from 0.4). *)
Theorem skip_penalty_steps_and_caps
        (s1 q1 s2 q2 : nat) (jobRole : string)
        (r : FetchResult (option string)) (now later : Z) (st : State) :
  (0 < q1)%nat -> (0 < q2)%nat ->
  let rate1 := (ofNat s1 / ofNat q1)%Q in
  let rate2 := (ofNat s2 / ofNat q2)%Q in
  let after := interviewScore (skipQuestion jobRole r now later st) in
  let rate := skipRateAfter (interviewScore st) in
  (* the step function *)
  ((8 # 10 <= rate1)%Q -> calculateSkipPenalty s1 q1 = 50%Q) /\
  ((6 # 10 <= rate1)%Q -> (rate1 < 8 # 10)%Q -> calculateSkipPenalty s1 q1 = 40%Q) /\
  ((4 # 10 <= rate1)%Q -> (rate1 < 6 # 10)%Q -> calculateSkipPenalty s1 q1 = 30%Q) /\
  ((2 # 10 <= rate1)%Q -> (rate1 < 4 # 10)%Q -> calculateSkipPenalty s1 q1 = 20%Q) /\
  ((rate1 < 2 # 10)%Q -> calculateSkipPenalty s1 q1 = 12%Q) /\
  (* monotone in the skip rate *)
  ((rate1 <= rate2)%Q ->
   (calculateSkipPenalty s1 q1 <= calculateSkipPenalty s2 q2)%Q) /\
  (* the caps after a skip *)
  ((8 # 10 <= rate)%Q -> (totalScore after <= 15)%Q) /\
  ((6 # 10 <= rate)%Q -> (totalScore after <= 15)%Q) /\
  ((4 # 10 <= rate)%Q -> (totalScore after <= 35)%Q).
Proof.
  intros Hq1 Hq2 rate1 rate2 after rate.
  assert (P1 : calculateSkipPenalty s1 q1 = penaltyOfRate rate1)
    by (destruct q1; [lia | reflexivity]).
  assert (P2 : calculateSkipPenalty s2 q2 = penaltyOfRate rate2)
    by (destruct q2; [lia | reflexivity]).
  rewrite P1, P2.
  destruct (penaltyOfRate_steps rate1) as (A & B & C & D & E).
  destruct (skipScore_capped (interviewScore st)) as (K15 & K35).
  subst after. rewrite skipQuestion_score. fold rate in K15, K35.
  repeat split; try assumption.
  - apply penaltyOfRate_monotone.
  - intro H. apply K15. lra.
Qed.

Lemma skip_penalty_steps_and_caps_witness :
  calculateSkipPenalty 4 5 = 50%Q /\
  (calculateSkipPenalty 1 5 <= calculateSkipPenalty 4 5)%Q /\
  (totalScore
     (interviewScore
        (skipQuestion "Software Developer" Rejected 0 0
           (setInterviewScore
              {| totalScore := 60; questionsAnswered := 1;
                 questionsSkipped := 3; averageResponseTime := 30;
                 confidence := 5 # 10; engagement := 5 # 10;
                 eyeContact := 5 # 10; communication := 5 # 10 |}
              initialState))) <= 15)%Q.
Proof.
  pose proof
    (skip_penalty_steps_and_caps 4 5 1 5 "Software Developer" Rejected 0 0
       (setInterviewScore
          {| totalScore := 60; questionsAnswered := 1;
             questionsSkipped := 3; averageResponseTime := 30;
             confidence := 5 # 10; engagement := 5 # 10;
             eyeContact := 5 # 10; communication := 5 # 10 |}
          initialState)
       ltac:(lia) ltac:(lia)) as H.
  cbv zeta in H.
  destruct H as (A & _ & _ & _ & _ & _ & C & _ & _).
  pose proof
    (skip_penalty_steps_and_caps 1 5 4 5 "Software Developer" Rejected 0 0
       initialState ltac:(lia) ltac:(lia)) as H'.
  cbv zeta in H'.
  destruct H' as (_ & _ & _ & _ & _ & M & _ & _ & _).
  split; [apply A; vm_compute; discriminate|].
  split; [apply M; vm_compute; discriminate|].
  apply C. vm_compute. discriminate.
Defined.

(** C10: a skip leaves [questionsAnswered], [averageResponseTime] and
    [eyeContact] as they were; it adds one to [questionsSkipped] and
    replaces confidence, engagement and communication by their value
    less 0.25, 0.20 and 0.15, floored at 0.05. *)
Theorem skip_frame (jobRole : string) (r : FetchResult (option string))
        (now later : Z) (st : State) :
  let before := interviewScore st in
  let after := interviewScore (skipQuestion jobRole r now later st) in
  questionsAnswered after = questionsAnswered before /\
  averageResponseTime after = averageResponseTime before /\
  eyeContact after = eyeContact before /\
  questionsSkipped after = S (questionsSkipped before) /\
  confidence after = Qmax (5 # 100) (confidence before - (25 # 100)) /\
  engagement after = Qmax (5 # 100) (engagement before - (20 # 100)) /\
  communication after = Qmax (5 # 100) (communication before - (15 # 100)) /\
  (5 # 100 <= confidence after)%Q /\
  (5 # 100 <= engagement after)%Q /\
  (5 # 100 <= communication after)%Q.
Proof.
  intros before after. subst after.
  rewrite skipQuestion_score. fold before.
  unfold skipScore.
  cbn [questionsAnswered averageResponseTime eyeContact questionsSkipped
       confidence engagement communication].
  repeat split; apply Qmax_ge_l.
Qed.

End SkipFacts.

(* ------------------------------------------------------------------ *)
(** ** Telemetry history *)

Module TelemetryFacts.

Import Telemetry Score Session.

Lemma sliceLast_length {A} (n : nat) (l : list A) :
  List.length (sliceLast n l) = Nat.min n (List.length l).
Proof. unfold sliceLast. rewrite length_skipn. lia. Qed.

Lemma sliceLast_short {A} (n : nat) (l : list A) :
  (List.length l <= n)%nat -> sliceLast n l = l.
Proof.
  intro H. unfold sliceLast.
  replace (List.length l - n)%nat with 0%nat by lia. apply skipn_0.
Qed.

(** Truncating before an append does not change the truncated result. *)
Lemma sliceLast_app_sliceLast {A} (n : nat) (l m : list A) :
  sliceLast n (sliceLast n l ++ m) = sliceLast n (l ++ m).
Proof.
  destruct (Nat.le_gt_cases (List.length l) n) as [Hle|Hgt].
  - rewrite (sliceLast_short n l Hle). reflexivity.
  - unfold sliceLast at 1 3.
    rewrite length_app, sliceLast_length, length_app.
    rewrite Nat.min_l by lia.
    unfold sliceLast.
    set (k := (List.length l - n)%nat).
    replace (n + List.length m - n)%nat with (List.length m) by lia.
    replace (List.length l + List.length m - n)%nat
      with (List.length m + k)%nat by (subst k; lia).
    rewrite <- skipn_skipn. f_equal.
    rewrite skipn_app.
    replace (k - List.length l)%nat with 0%nat by (subst k; lia).
    rewrite skipn_0. reflexivity.
Qed.

Lemma onFacialAnalysis_history (now : Z) (d : FacialData) (st : State) :
  facial (analysisHistory (onFacialAnalysis now d st))
  = sliceLast 50 (facial (analysisHistory st) ++ [entryOf (now, d)]).
Proof.
  unfold onFacialAnalysis.
  match goal with |- context [if ?c then _ else _] => destruct c end;
    reflexivity.
Qed.

Lemma ingestFacial_history (samples : list (Z * FacialData)) :
  forall st : State,
    (List.length (facial (analysisHistory st)) <= 50)%nat ->
    facial (analysisHistory (ingestFacial samples st))
    = sliceLast 50 (facial (analysisHistory st) ++ map entryOf samples).
Proof.
  induction samples as [|s samples IH]; intros st Hst.
  - cbn [ingestFacial fold_left map]. rewrite app_nil_r.
    symmetry. apply sliceLast_short. exact Hst.
  - change (ingestFacial (s :: samples) st)
      with (ingestFacial samples (onFacialAnalysis (fst s) (snd s) st)).
    rewrite IH.
    + rewrite onFacialAnalysis_history.
      rewrite sliceLast_app_sliceLast, <- app_assoc.
      destruct s; reflexivity.
    + rewrite onFacialAnalysis_history, sliceLast_length. lia.
Qed.

(** The facial history never holds more than 50 entries, and after more
    than 50 events it holds exactly the last 50 of them, in order. *)
Lemma facial_history_bounded (samples : list (Z * FacialData)) :
  let h := facial (analysisHistory (ingestFacial samples initialState)) in
  (List.length h <= 50)%nat /\
  h = sliceLast 50 (map entryOf samples) /\
  ((50 < List.length samples)%nat -> List.length h = 50%nat).
Proof.
  cbv zeta.
  rewrite ingestFacial_history by (cbn; lia).
  cbn [initialState analysisHistory facial app].
  rewrite sliceLast_length, length_map.
  repeat split; lia.
Qed.

Lemma onVoiceAnalysis_history (d : VoiceData) (st : State) :
  analysisHistory (onVoiceAnalysis d st) = analysisHistory st.
Proof. reflexivity. Qed.

(** C3 (the voice half fails on the code): the voice handler only
    replaces [voiceAnalysisData]; no voice event ever reaches
    [analysisHistory.voice], so after any number of voice events (51,
    say) the retained voice history is still empty, not the 50 most
    recent samples. *)
Theorem voice_history_stays_empty (samples : list VoiceData) :
  voice (analysisHistory (ingestVoice samples initialState)) = [] /\
  List.length
    (voice (analysisHistory (ingestVoice (repeat [] 51) initialState)))
  = 0%nat.
Proof.
  split; [|reflexivity].
  assert (G : forall st, analysisHistory (ingestVoice samples st)
                         = analysisHistory st).
  { induction samples as [|d ds IH]; intro st; [reflexivity|].
    change (ingestVoice (d :: ds) st)
      with (ingestVoice ds (onVoiceAnalysis d st)).
    rewrite IH. apply onVoiceAnalysis_history. }
  rewrite G. reflexivity.
Qed.

End TelemetryFacts.

(* ------------------------------------------------------------------ *)
(** ** Question issuance and recording *)

Module TransitionFacts.

Import Score Session.



(** C8 (fails on the code at the first question): when the request for
    the first question fails, [currentQuestionNumber] is still 0 in the
    closure, the index is [(0 - 1) % 5 = -1], and the question stored is
    [undefined] rather than one of the five templates. *)
Theorem first_fallback_question_undefined (jobRole : string) (now later : Z) :
  fallbackIndex jobRole 0 = -1 /\
  currentQuestion (startInterview jobRole Rejected now later initialState)
  = None /\
  currentQuestion
    (startInterview jobRole (Responded 500 None) now later initialState)
  = None.
Proof. repeat split. Qed.

(** C9 (as stated, refuted): with the microphone denied, the current
    answer transcript does not keep its value. *)
Lemma denied_recording_clears_transcript :
  isRecording lateTranscript = false /\
  currentAnswer lateTranscript = lit "hello" /\
  currentAnswer (startRecording MicrophoneDenied lateTranscript) = [] /\
  currentAnswer (startRecording MicrophoneDenied lateTranscript)
  <> currentAnswer lateTranscript.
Proof. repeat split. vm_compute. discriminate. Qed.

(** C9 (amended): with the microphone denied, [startRecording] raises
    the alert, leaves both recording flags false, and changes nothing
    else except that the current answer transcript and the audio chunks
    are reset to empty; scores, question records, the question and its
    number are as before.  When the transcript and the chunks were empty
    and the session was not recording, the state is unchanged apart from
    the alert. *)
Theorem denied_recording_effect (st : State) :
  let st' := startRecording MicrophoneDenied st in
  alerts st' = alerts st ++ [microphoneAlert] /\
  isRecording st' = false /\ isRecordingRef st' = false /\
  currentAnswer st' = [] /\ audioChunks st' = [] /\
  interviewScore st' = interviewScore st /\
  analysisHistory st' = analysisHistory st /\
  currentQuestion st' = currentQuestion st /\
  currentQuestionNumber st' = currentQuestionNumber st /\
  questionStartTime st' = questionStartTime st /\
  timers st' = timers st /\ ended st' = ended st /\
  (isRecording st = false -> isRecordingRef st = false ->
   currentAnswer st = [] -> audioChunks st = [] ->
   st' = alert microphoneAlert st).
Proof.
  cbv zeta. repeat split.
  intros H1 H2 H3 H4. destruct st; cbn in *. subst. reflexivity.
Qed.

Lemma denied_recording_effect_witness :
  startRecording MicrophoneDenied initialState
  = alert microphoneAlert initialState.
Proof.
  apply (denied_recording_effect initialState); reflexivity.
Defined.

End TransitionFacts.

(* ------------------------------------------------------------------ *)
(** ** Remote-first evaluation *)

Module EvaluationFacts.

Import Score Session.

Section WithHost.

Variable toLowerCase : jsstring -> jsstring.

Lemma evaluateResponse_failed (remote : FetchResult (option AnyEvaluation))
      (rnd : Q) (st : State) (transcript : jsstring) (responseTime : Q) :
  fetchFailed remote = true ->
  evaluateResponse toLowerCase remote rnd st transcript responseTime
  = Some (localScore toLowerCase rnd st transcript responseTime).
Proof.
  destruct remote as [|status [body|]]; cbn; try reflexivity.
  destruct (responseOk status); [discriminate | reflexivity].
Qed.

Lemma proceedToNextStep_effects (seen : InterviewScore) (st : State) :
  alerts (proceedToNextStep seen st) = alerts st /\
  ended (proceedToNextStep seen st) = ended st /\
  interviewScore (proceedToNextStep seen st) = interviewScore st /\
  analysisHistory (proceedToNextStep seen st) = analysisHistory st /\
  (timers (proceedToNextStep seen st) = timers st ++ [EndInterviewIn 2000]
   \/ timers (proceedToNextStep seen st)
      = timers st ++ [GenerateNewQuestionIn 2000]).
Proof.
  unfold proceedToNextStep.
  destruct (MAX_QUESTIONS <=? _)%nat; cbn; auto 10.
Qed.

(** C7: when the remote comprehensive-evaluation call fails (the
    request rejects, as on a network error or a timeout, or the status is
    not 2xx, as HTTP 500, or the body does not parse), the evaluation used
    is the local scorer's on the transcript, the elapsed time, the
    telemetry and the question of the answer being processed.  It is
    merged: a fifth of its score is added to the total, the answered count
    rises by one, the mean response time takes the elapsed time in, the
    other fields of the score are kept, and one record with the question,
    the trimmed transcript, that score, the elapsed time and the clock of
    the merge is appended to the responses.  The session advances: the
    transcript and the audio chunks are cleared and one timer is set, for
    the end when the questions counted by the closure reach
    [MAX_QUESTIONS] and for the next question otherwise.  No alert is
    raised and the interview is not ended by the handler.  Here [seen] is
    the state of the render the handler closes over and [st] the state
    its updates apply to. *)
Theorem remote_failure_falls_back
        (voiceFetch : FetchResult VoiceData)
        (remote : FetchResult (option AnyEvaluation))
        (rnd : Q) (now stamp later laterStamp : Z) (seen st : State) :
  fetchFailed remote = true ->
  reachesEvaluation voiceFetch seen = true ->
  let responseTime := responseTimeAt now seen in
  let local :=
    Scorer.calculateRealisticScore toLowerCase rnd
      (facial (analysisHistory seen)) (currentAnswer seen)
      responseTime (currentQuestion seen) in
  let points := inject_Z (Scorer.score local) in
  let before := interviewScore st in
  let st' := processAudioAndTranscript toLowerCase voiceFetch remote
               rnd now stamp later laterStamp seen st in
  let after := interviewScore st' in
  (* the local scorer, on the same inputs *)
  evaluateResponse toLowerCase remote rnd seen (currentAnswer seen) responseTime
  = Some (ofLocal local) /\
  (* merged *)
  totalScore after = (totalScore before + points * (20 # 100))%Q /\
  questionsAnswered after = S (questionsAnswered before) /\
  questionsSkipped after = questionsSkipped before /\
  averageResponseTime after
  = ((averageResponseTime before * ofNat (questionsAnswered before)
      + responseTime) / ofNat (S (questionsAnswered before)))%Q /\
  confidence after = confidence before /\
  engagement after = engagement before /\
  eyeContact after = eyeContact before /\
  communication after = communication before /\
  responses (analysisHistory st')
  = responses (analysisHistory st)
    ++ [{| r_question := currentQuestion seen;
           r_answer := trim (currentAnswer seen);
           r_score := points;
           r_duration := responseTime;
           r_timestamp := stamp |}] /\
  facial (analysisHistory st') = facial (analysisHistory st) /\
  voice (analysisHistory st') = voice (analysisHistory st) /\
  (* the session advances *)
  currentAnswer st' = [] /\
  audioChunks st' = [] /\
  timers st'
  = timers st
    ++ [if (MAX_QUESTIONS
            <=? questionsAnswered (interviewScore seen) + 1
                + questionsSkipped (interviewScore seen))%nat
        then EndInterviewIn 2000 else GenerateNewQuestionIn 2000] /\
  currentQuestion st' = currentQuestion st /\
  currentQuestionNumber st' = currentQuestionNumber st /\
  (* as the transcript-only path at the same two clock readings *)
  st' = processTranscriptOnly toLowerCase rnd now stamp seen st /\
  (* silently *)
  alerts st' = alerts st /\
  ended st' = ended st.
Proof.
  intros Hfail Hreach responseTime local points before st' after.
  assert (E : evaluateResponse toLowerCase remote rnd seen (currentAnswer seen)
                responseTime = Some (ofLocal local))
    by (apply evaluateResponse_failed; exact Hfail).
  assert (S1 : st' = proceedToNextStep (interviewScore seen)
                       (updateScoreWithEvaluation (ofLocal local) responseTime
                          stamp seen st)).
  { subst st'. unfold processAudioAndTranscript, reachesEvaluation in *.
    fold responseTime. rewrite E.
    destruct (audioChunks seen) as [|c cs].
    - destruct (trim (currentAnswer seen)); [discriminate | reflexivity].
    - destruct voiceFetch as [|status [v|]]; try discriminate.
      + destruct (trim (currentAnswer seen)); reflexivity.
      + destruct (responseOk status); [discriminate|].
        destruct (trim (currentAnswer seen)); reflexivity. }
  split; [exact E|].
  subst after. rewrite S1.
  unfold processTranscriptOnly, localScore. fold responseTime. fold local.
  unfold proceedToNextStep.
  destruct (MAX_QUESTIONS <=? _)%nat; repeat split; reflexivity.
Qed.

End WithHost.

Lemma remote_failure_falls_back_witness :
  let seen := recorded in
  let st := fst (Run.stopRecording Scorer.asciiToLowerCase (1 # 2) 46000 46000
                   recorded) in
  let st' := processAudioAndTranscript Scorer.asciiToLowerCase
               (Responded 200 (Some [])) (Responded 500 None) (1 # 2)
               46500 46900 46901 46902 seen st in
  questionsAnswered (interviewScore st') = 1%nat /\
  List.length (responses (analysisHistory st')) = 1%nat /\
  timers st' = [GenerateNewQuestionIn 2000] /\
  alerts st' = [].
Proof.
  intros seen st st'.
  destruct (remote_failure_falls_back Scorer.asciiToLowerCase
              (Responded 200 (Some [])) (Responded 500 None) (1 # 2)
              46500 46900 46901 46902 seen st)
    as (_ & _ & A & _ & _ & _ & _ & _ & _ & R & _ & _ & _ & _ & T & _ & _
        & _ & L & _).
  - reflexivity.
  - reflexivity.
  - subst st'. cbv zeta in A, R, T, L. rewrite A, R, T, L. repeat split.
Defined.

End EvaluationFacts.

(* ------------------------------------------------------------------ *)
(** ** The local scorer *)

Module ScorerFacts.

Import Regex Scorer.

(** *** [Math.floor(t * 0.7)] on the scores the scorer can earn *)

Lemma floorTimes07_table :
  forallb (fun n => floorTimes07 (Z.of_nat n)
                    =? 7 * Z.of_nat n / 10 - (if Z.of_nat n =? 90 then 1 else 0))
          (seq 0 116) = true.
Proof. vm_compute. reflexivity. Qed.

(** The double product agrees with the exact one except at 90, where
    [90 * 0.7] is the double just below 63. *)
Lemma floorTimes07_small (t : Z) :
  0 <= t <= 115 ->
  floorTimes07 t = 7 * t / 10 - (if t =? 90 then 1 else 0).
Proof.
  intro Ht.
  pose proof floorTimes07_table as T.
  rewrite forallb_forall in T.
  specialize (T (Z.to_nat t)).
  rewrite Z2Nat.id in T by lia.
  apply Z.eqb_eq, T, in_seq. lia.
Qed.

Lemma floorTimes07_monotone (a b : Z) :
  0 <= a -> a <= b -> b <= 115 -> floorTimes07 a <= floorTimes07 b.
Proof.
  intros Ha Hab Hb.
  rewrite !floorTimes07_small by lia.
  destruct (Z.eqb_spec a 90), (Z.eqb_spec b 90);
    Z.div_mod_to_equations; lia.
Qed.

(** *** Words and length *)

Lemma count_cons {A} (p : A -> bool) (x : A) (l : list A) :
  count p (x :: l) = (if p x then 1 else 0) + count p l.
Proof.
  unfold count. cbn [filter]. destruct (p x); cbn [List.length]; lia.
Qed.

Lemma splitRunsAux_words (sep : N -> bool) (s : jsstring) :
  forall (cur : jsstring) (inRun : bool),
    2 * count (fun word => 1 <? JsString.length word)
              (splitRunsAux sep cur inRun s)
    <= JsString.length cur + JsString.length s.
Proof.
  unfold JsString.length.
  induction s as [|c s IH]; intros cur inRun; cbn [splitRunsAux].
  - rewrite count_cons. unfold count. cbn [filter List.length].
    rewrite length_rev.
    destruct (Z.ltb_spec 1 (Z.of_nat (List.length cur))); lia.
  - destruct (sep c).
    + destruct inRun.
      * specialize (IH cur true). cbn [List.length]. lia.
      * rewrite count_cons, length_rev.
        specialize (IH [] true). cbn [List.length] in *.
        destruct (Z.ltb_spec 1 (Z.of_nat (List.length cur))); lia.
    + specialize (IH (c :: cur) false). cbn [List.length] in *. lia.
Qed.

(** Every countable word has two code units at least. *)
Lemma wordCount_le_length (s : jsstring) :
  2 * wordCountOf s <= JsString.length s.
Proof.
  unfold wordCountOf, splitRuns.
  pose proof (splitRunsAux_words isWhiteSpace s [] false) as H.
  unfold JsString.length in *. cbn [List.length] in H. lia.
Qed.

(** *** The branches of the cascade *)

Section WithHost.

Variable toLowerCase : jsstring -> jsstring.

Lemma calculateRealisticScore_degenerate
      (rnd : Q) (facial : list (Telemetry.Entry Telemetry.FacialData))
      (answer : jsstring) (responseTime : Q) (question : option string) :
  (wordCountOf (trim answer) =? 0)
  || (JsString.length (trim answer) <? 3) = true ->
  calculateRealisticScore toLowerCase rnd facial answer responseTime question
  = {| score := 0;
       feedback := "No meaningful response provided. Please answer the question with specific details.";
       strengths := [];
       improvements := ["Provide a complete answer to the question";
                        "Use specific examples from your experience";
                        "Speak clearly and confidently"] |}.
Proof.
  intro H. unfold calculateRealisticScore. cbv zeta.
  rewrite H. reflexivity.
Qed.

Lemma calculateRealisticScore_reaches_full
      (rnd : Q) (facial : list (Telemetry.Entry Telemetry.FacialData))
      (answer : jsstring) (responseTime : Q) (question : option string) :
  15 <= wordCountOf (trim answer) ->
  calculateRealisticScore toLowerCase rnd facial answer responseTime question
  = fullScoring toLowerCase facial (trim answer) (wordCountOf (trim answer))
      (sentenceCountOf (trim answer)) responseTime.
Proof.
  intro Hw.
  pose proof (wordCount_le_length (trim answer)) as Hlen.
  unfold calculateRealisticScore. cbv zeta.
  replace (wordCountOf (trim answer) =? 0) with false
    by (symmetry; apply Z.eqb_neq; lia).
  replace (JsString.length (trim answer) <? 3) with false
    by (symmetry; apply Z.ltb_ge; lia).
  replace (wordCountOf (trim answer) <? 5) with false
    by (symmetry; apply Z.ltb_ge; lia).
  replace (wordCountOf (trim answer) <? 15) with false
    by (symmetry; apply Z.ltb_ge; lia).
  reflexivity.
Qed.

(** From 15 countable words on, the score is the factored one and the
    feedback is the band of the score. *)
Lemma calculateRealisticScore_full
      (rnd : Q) (facial : list (Telemetry.Entry Telemetry.FacialData))
      (answer : jsstring) (responseTime : Q) (question : option string) :
  15 <= wordCountOf (trim answer) ->
  score (calculateRealisticScore toLowerCase rnd facial answer
           responseTime question)
  = scoreFromFactors (wordCountOf (trim answer))
      (factorsOf toLowerCase facial answer responseTime)
  /\ feedback (calculateRealisticScore toLowerCase rnd facial answer
                 responseTime question)
     = feedbackFor (scoreFromFactors (wordCountOf (trim answer))
                      (factorsOf toLowerCase facial answer responseTime)).
Proof.
  intro Hw.
  rewrite calculateRealisticScore_reaches_full by exact Hw.
  unfold fullScoring, scoreFromFactors, settle, earnedPoints, factorsOf.
  cbv zeta.
  cbn [score feedback structureScore timingScore nonverbalScore
       hasSpecificExamples hasQuantifiableResults hasSTARStructure
       technicalTerms hedges mostlyLowercase].
  split; reflexivity.
Qed.

End WithHost.

(** *** Ranges of the components *)

Lemma structureScoreOf_range (t : jsstring) (w s : Z) :
  0 <= structureScoreOf t w s <= 20.
Proof.
  unfold structureScoreOf. cbv zeta.
  repeat match goal with
         | |- context [if ?c then _ else _] => destruct c
         end; lia.
Qed.

Lemma timingScoreOf_range (responseTime : Q) :
  0 <= timingScoreOf responseTime <= 15.
Proof.
  unfold timingScoreOf.
  repeat match goal with
         | |- context [if ?c then _ else _] => destruct c
         end; lia.
Qed.

Lemma nonverbalScoreOf_range
      (facial : list (Telemetry.Entry Telemetry.FacialData)) :
  0 <= nonverbalScoreOf facial <= 15.
Proof.
  unfold nonverbalScoreOf. cbv zeta.
  repeat match goal with
         | |- context [if ?c then _ else _] => destruct c
         end; lia.
Qed.

Lemma factorsOf_bounded (toLowerCase : jsstring -> jsstring)
      (facial : list (Telemetry.Entry Telemetry.FacialData))
      (answer : jsstring) (responseTime : Q) :
  boundedFactors (factorsOf toLowerCase facial answer responseTime).
Proof.
  unfold boundedFactors, factorsOf.
  cbn [structureScore timingScore nonverbalScore].
  auto using structureScoreOf_range, timingScoreOf_range,
    nonverbalScoreOf_range.
Qed.

(** *** Monotonicity in the word count *)


Lemma threshold_range (b : bool) (k v w : Z) :
  0 <= v -> 0 <= (if b && (k <=? w) then v else 0) <= v.
Proof. intro Hv. destruct (b && (k <=? w)); lia. Qed.


Lemma clarityScoreOf_range (w : Z) : 0 <= clarityScoreOf w <= 30.
Proof.
  unfold clarityScoreOf.
  destruct (20 <=? w), (40 <=? w), (60 <=? w); lia.
Qed.


Lemma earnedPoints_range (f : Factors) (w : Z) :
  boundedFactors f -> 0 <= earnedPoints w f <= 115.
Proof.
  intros (Hs & Ht & Hn). unfold earnedPoints.
  pose proof (clarityScoreOf_range w).
  pose proof (threshold_range (hasSpecificExamples f) 30 10 w ltac:(lia)).
  pose proof (threshold_range (hasQuantifiableResults f) 25 10 w ltac:(lia)).
  pose proof (threshold_range (hasSTARStructure f) 40 10 w ltac:(lia)).
  pose proof (threshold_range (2 <=? technicalTerms f) 35 5 w ltac:(lia)).
  lia.
Qed.

(** Penalties, caps and clamp keep the order of the earned points, and
    a larger word count only lifts caps. *)
Lemma settle_monotone (f : Factors) (w1 w2 x1 x2 : Z) :
  w1 <= w2 -> 0 <= x1 -> x1 <= x2 -> x2 <= 115 ->
  settle w1 f x1 <= settle w2 f x2.
Proof.
  intros Hw H0 Hx H115. unfold settle. cbv zeta.
  assert (Hh : (if hedges f then floorTimes07 x1 else x1)
               <= (if hedges f then floorTimes07 x2 else x2)).
  { destruct (hedges f); [apply floorTimes07_monotone|]; lia. }
  revert Hh.
  generalize (if hedges f then floorTimes07 x1 else x1).
  generalize (if hedges f then floorTimes07 x2 else x2).
  intros y2 y1 Hy.
  destruct (mostlyLowercase f), (hasSpecificExamples f),
    (hasQuantifiableResults f), (hasSTARStructure f);
    cbn [negb andb];
    destruct (Z.ltb_spec w1 20), (Z.ltb_spec w2 20),
      (Z.ltb_spec w1 30), (Z.ltb_spec w2 30);
    cbn [negb andb]; lia.
Qed.


(** *** The range of the score *)

Lemma Qfloor_scaled (rnd : Q) (k : Z) :
  (0 <= rnd)%Q -> (rnd < 1)%Q -> 0 < k ->
  0 <= Qfloor (rnd * inject_Z k) < k.
Proof.
  intros H0 H1 Hk.
  assert (Hk' : (0 < inject_Z k)%Q)
    by (change 0%Q with (inject_Z 0); rewrite <- Zlt_Qlt; exact Hk).
  split.
  - rewrite <- (Qfloor_Z 0).
    apply Qfloor_resp_le. change (inject_Z 0) with 0%Q. nra.
  - rewrite Zlt_Qlt.
    eapply Qle_lt_trans; [apply Qfloor_le|]. nra.
Qed.

(** With [Math.random()] in [0, 1), every score of the local scorer lies
    between 0 and 100. *)
Lemma calculateRealisticScore_range
      (toLowerCase : jsstring -> jsstring) (rnd : Q)
      (facial : list (Telemetry.Entry Telemetry.FacialData))
      (answer : jsstring) (responseTime : Q) (question : option string) :
  (0 <= rnd)%Q -> (rnd < 1)%Q ->
  0 <= score (calculateRealisticScore toLowerCase rnd facial answer
                responseTime question) <= 100.
Proof.
  intros H0 H1.
  pose proof (Qfloor_scaled rnd 10 H0 H1 ltac:(lia)) as R10.
  pose proof (Qfloor_scaled rnd 20 H0 H1 ltac:(lia)) as R20.
  change (inject_Z 10) with 10%Q in R10.
  change (inject_Z 20) with 20%Q in R20.
  destruct (Z.le_gt_cases 15 (wordCountOf (trim answer))) as [Hfull|Hshort].
  - destruct (calculateRealisticScore_full toLowerCase rnd facial answer
                responseTime question Hfull) as (E & _).
    rewrite E. unfold scoreFromFactors, settle. cbv zeta. lia.
  - unfold calculateRealisticScore. cbv zeta.
    replace (wordCountOf (trim answer) <? 15) with true
      by (symmetry; apply Z.ltb_lt; lia).
    destruct (_ || _); [cbn [score]; lia|].
    destruct (_ <? 5); cbn [score]; lia.
Qed.

(** *** The claims about the scorer *)

(** C4: a transcript whose trimmed form has no countable word, or fewer
    than three code units, gets score 0, no strengths, the fixed list of
    three improvements and the fixed feedback; nothing else of the
    cascade is evaluated. *)
Theorem degenerate_transcript_scores_zero
        (toLowerCase : jsstring -> jsstring) (rnd : Q)
        (facial : list (Telemetry.Entry Telemetry.FacialData))
        (answer : jsstring) (responseTime : Q) (question : option string) :
  wordCountOf (trim answer) = 0 \/ JsString.length (trim answer) < 3 ->
  let e := calculateRealisticScore toLowerCase rnd facial answer
             responseTime question in
  e = {| score := 0;
         feedback := "No meaningful response provided. Please answer the question with specific details.";
         strengths := [];
         improvements := ["Provide a complete answer to the question";
                          "Use specific examples from your experience";
                          "Speak clearly and confidently"] |}
  /\ score e = 0 /\ strengths e = [] /\ improvements e <> [].
Proof.
  intros H e.
  assert (E : e = {| score := 0;
         feedback := "No meaningful response provided. Please answer the question with specific details.";
         strengths := [];
         improvements := ["Provide a complete answer to the question";
                          "Use specific examples from your experience";
                          "Speak clearly and confidently"] |}).
  { apply calculateRealisticScore_degenerate.
    apply orb_true_iff.
    destruct H as [H|H]; [left; apply Z.eqb_eq | right; apply Z.ltb_lt];
      exact H. }
  rewrite E. cbn [score strengths improvements].
  repeat split. discriminate.
Qed.

(** Scenario A: the empty transcript with [responseTime = 10]. *)
Lemma degenerate_transcript_scores_zero_witness :
  let e := calculateRealisticScore asciiToLowerCase (1 # 2) [] [] 10 None in
  score e = 0 /\ strengths e = [] /\ improvements e <> [].
Proof.
  apply (degenerate_transcript_scores_zero asciiToLowerCase (1 # 2) [] []
           10 None).
  left. reflexivity.
Defined.

(** C5 (as stated, refuted): [starAnswer] has 60 words, tells situation,
    task, action and result, and contains "increased revenue by 20%";
    with [responseTime = 45] its components are clarity 30, structure 20,
    timing 15 and bonuses 20, yet the score is 80 (five points go to the
    lower-case penalty) and the feedback is the "Good response" one. *)
Lemma star_answer_scores_80 :
  let t := trim starAnswer in
  let w := wordCountOf t in
  let f := factorsOf asciiToLowerCase [] starAnswer 45 in
  let e := calculateRealisticScore asciiToLowerCase (1 # 2) [] starAnswer
             45 None in
  w = 60 /\ List.length (splitChar 32 t) = 60%nat /\
  includes (lit "increased revenue by 20%") t = true /\
  hasSTARStructure f = true /\ hasQuantifiableResults f = true /\
  clarityScoreOf w = 30 /\ structureScore f = 20 /\ timingScore f = 15 /\
  earnedPoints w f - clarityScoreOf w - structureScore f - timingScore f = 20 /\
  score e = 80 /\ ~ 85 <= score e /\
  feedback e
  = "Good response with solid content. Could be enhanced with more specific examples.".
Proof. vm_compute. repeat split. intro H. apply H. reflexivity. Qed.

(** C5 (amended): for a transcript of at least 60 countable words in
    which quantifiable-result language (such as "increased revenue by
    20%") and a STAR keyword are detected, whose structure score is at
    least 15 and which holds no hedging phrase, evaluated with
    [responseTime = 45]: clarity is 30, timing is 15, the bonuses are at
    least 20, the score is at least 75 and the feedback is the "Good
    response" or the "Excellent response" one.  The score is at least 85
    and the feedback the "Excellent response" one when, in addition,
    concrete-example language (such as the word "situation") is
    detected. *)
Theorem star_answer_score
        (toLowerCase : jsstring -> jsstring) (rnd : Q)
        (facial : list (Telemetry.Entry Telemetry.FacialData))
        (answer : jsstring) (question : option string) :
  let w := wordCountOf (trim answer) in
  let f := factorsOf toLowerCase facial answer 45 in
  let e := calculateRealisticScore toLowerCase rnd facial answer 45 question in
  60 <= w ->
  hasQuantifiableResults f = true ->
  hasSTARStructure f = true ->
  15 <= structureScore f ->
  hedges f = false ->
  clarityScoreOf w = 30 /\ timingScore f = 15 /\
  20 <= earnedPoints w f - clarityScoreOf w - structureScore f
        - timingScore f - nonverbalScore f /\
  75 <= score e /\
  (feedback e
   = "Good response with solid content. Could be enhanced with more specific examples."
   \/ feedback e
      = "Excellent response! Strong content with specific examples and clear impact.") /\
  (hasSpecificExamples f = true ->
   85 <= score e /\
   feedback e
   = "Excellent response! Strong content with specific examples and clear impact.").
Proof.
  intros w f e Hw Hq Hs Hst Hh.
  destruct (calculateRealisticScore_full toLowerCase rnd facial answer 45
              question ltac:(fold w; lia)) as (Escore & Efeed).
  fold w f e in Escore, Efeed.
  destruct (factorsOf_bounded toLowerCase facial answer 45) as (Bs & Bt & Bn).
  fold f in Bs, Bt, Bn.
  assert (Hc : clarityScoreOf w = 30).
  { unfold clarityScoreOf.
    destruct (Z.leb_spec 20 w), (Z.leb_spec 40 w), (Z.leb_spec 60 w); lia. }
  assert (Ht : timingScore f = 15) by reflexivity.
  pose proof (threshold_range (hasSpecificExamples f) 30 10 w ltac:(lia)) as R1.
  pose proof (threshold_range (2 <=? technicalTerms f) 35 5 w ltac:(lia)) as R4.
  assert (He : earnedPoints w f
               = 30 + structureScore f + 15 + nonverbalScore f
                 + (if hasSpecificExamples f && (30 <=? w) then 10 else 0)
                 + 10 + 10
                 + (if (2 <=? technicalTerms f) && (35 <=? w) then 5 else 0)).
  { unfold earnedPoints. rewrite Hc, Ht, Hq, Hs. cbn [andb].
    destruct (Z.leb_spec 25 w), (Z.leb_spec 40 w); lia. }
  assert (Hsettle : forall x, 0 <= x ->
            Z.min 100 (x - 5) <= settle w f x).
  { intros x Hx. unfold settle. cbv zeta. rewrite Hh, Hq.
    destruct (mostlyLowercase f), (hasSpecificExamples f);
      cbn [negb andb];
      destruct (Z.ltb_spec w 20), (Z.ltb_spec w 30); cbn [negb andb]; lia. }
  pose proof (Hsettle (earnedPoints w f) ltac:(lia)) as Hlow.
  fold (scoreFromFactors w f) in Hlow. rewrite <- Escore in Hlow.
  assert (H75 : 75 <= score e) by lia.
  repeat split; try assumption; try lia.
  - rewrite Efeed, <- Escore. unfold feedbackFor.
    destruct (Z.leb_spec 85 (score e)); [right; reflexivity|].
    destruct (Z.leb_spec 70 (score e)); [left; reflexivity | lia].
  - rewrite H in R1, He. cbn [andb] in *.
    destruct (Z.leb_spec 30 w); lia.
  - rewrite Efeed, <- Escore. unfold feedbackFor.
    rewrite H in R1, He. cbn [andb] in *.
    destruct (Z.leb_spec 30 w); [|lia].
    destruct (Z.leb_spec 85 (score e)); [reflexivity | lia].
Qed.

Lemma star_answer_score_witness :
  let e := calculateRealisticScore asciiToLowerCase (1 # 2) []
             starAnswerWithSituation 45 None in
  85 <= score e /\
  feedback e
  = "Excellent response! Strong content with specific examples and clear impact.".
Proof.
  apply (star_answer_score asciiToLowerCase (1 # 2) []
           starAnswerWithSituation None);
    vm_compute; try reflexivity; discriminate.
Defined.






End ScorerFacts.

(* ------------------------------------------------------------------ *)
(** ** Further properties of the local scorer *)

Module ScorerBands.

Import Regex Scorer ScorerFacts.

Lemma calculateRealisticScore_range_witness :
  0 <= score (calculateRealisticScore asciiToLowerCase (1 # 2) []
                starAnswer 45 None) <= 100.
Proof.
  apply (calculateRealisticScore_range asciiToLowerCase (1 # 2) []
           starAnswer 45 None).
  - vm_compute. discriminate.
  - vm_compute. reflexivity.
Defined.

(** X2: Below 15 countable words the score is effort credit only: between 5
    and 14 for fewer than five words, between 10 and 29 from five words
    on, whatever the content, the timing and the telemetry. *)
Theorem brief_answer_bands
        (toLowerCase : jsstring -> jsstring) (rnd : Q)
        (facial : list (Telemetry.Entry Telemetry.FacialData))
        (answer : jsstring) (responseTime : Q) (question : option string) :
  (0 <= rnd)%Q -> (rnd < 1)%Q ->
  1 <= wordCountOf (trim answer) < 15 ->
  3 <= JsString.length (trim answer) ->
  let e := calculateRealisticScore toLowerCase rnd facial answer
             responseTime question in
  (wordCountOf (trim answer) < 5 ->
   5 <= score e < 15 /\ strengths e = ["Attempted to answer"]) /\
  (5 <= wordCountOf (trim answer) ->
   10 <= score e < 30 /\
   (strengths e = [] <-> wordCountOf (trim answer) <= 8)).
Proof.
  intros H0 H1 Hw Hlen e.
  pose proof (Qfloor_scaled rnd 10 H0 H1 ltac:(lia)) as R10.
  pose proof (Qfloor_scaled rnd 20 H0 H1 ltac:(lia)) as R20.
  change (inject_Z 10) with 10%Q in R10.
  change (inject_Z 20) with 20%Q in R20.
  subst e. unfold calculateRealisticScore. cbv zeta.
  replace (wordCountOf (trim answer) =? 0) with false
    by (symmetry; apply Z.eqb_neq; lia).
  replace (JsString.length (trim answer) <? 3) with false
    by (symmetry; apply Z.ltb_ge; lia).
  replace (wordCountOf (trim answer) <? 15) with true
    by (symmetry; apply Z.ltb_lt; lia).
  cbn [orb].
  destruct (Z.ltb_spec (wordCountOf (trim answer)) 5) as [L|L];
    cbn [score strengths]; split; intro H; try lia.
  - split; [lia | reflexivity].
  - split; [lia|].
    destruct (Z.ltb_spec 8 (wordCountOf (trim answer))); split; intro K;
      try lia; try reflexivity; discriminate.
Qed.

Lemma brief_answer_bands_witness :
  let e := calculateRealisticScore asciiToLowerCase (1 # 2) []
             (lit "We shipped it on time") 45 None in
  10 <= score e < 30.
Proof.
  assert (H0 : (0 <= 1 # 2)%Q) by (vm_compute; discriminate).
  assert (H1 : (1 # 2 < 1)%Q) by (vm_compute; reflexivity).
  assert (Hw : 1 <= wordCountOf (trim (lit "We shipped it on time")) < 15)
    by (vm_compute; split; [discriminate | reflexivity]).
  assert (Hl : 3 <= JsString.length (trim (lit "We shipped it on time")))
    by (vm_compute; discriminate).
  destruct (brief_answer_bands asciiToLowerCase (1 # 2) []
              (lit "We shipped it on time") 45 None H0 H1 Hw Hl) as (_ & B).
  apply B. vm_compute. discriminate.
Defined.

(** X3: The score ceilings of the full-scoring branch: at most 35 below 20
    words, at most 45 below 30 words without concrete-example language,
    and at most 50 (so never the "Good" or "Excellent" feedback) when
    neither examples nor quantifiable results nor a STAR keyword are
    detected. *)
Theorem score_ceilings
        (toLowerCase : jsstring -> jsstring) (rnd : Q)
        (facial : list (Telemetry.Entry Telemetry.FacialData))
        (answer : jsstring) (responseTime : Q) (question : option string) :
  15 <= wordCountOf (trim answer) ->
  let w := wordCountOf (trim answer) in
  let f := factorsOf toLowerCase facial answer responseTime in
  let e := calculateRealisticScore toLowerCase rnd facial answer
             responseTime question in
  (w < 20 -> score e <= 35) /\
  (w < 30 -> hasSpecificExamples f = false -> score e <= 45) /\
  (hasSpecificExamples f = false -> hasQuantifiableResults f = false ->
   hasSTARStructure f = false ->
   score e <= 50 /\ feedback e <> feedbackFor 70 /\ feedback e <> feedbackFor 85).
Proof.
  intros Hw w f e.
  destruct (calculateRealisticScore_full toLowerCase rnd facial answer
              responseTime question Hw) as (Es & Ef).
  fold w f e in Es, Ef.
  assert (C1 : w < 20 -> score e <= 35).
  { intro H. rewrite Es. unfold scoreFromFactors, settle. cbv zeta.
    replace (w <? 20) with true by (symmetry; apply Z.ltb_lt; lia).
    repeat match goal with
           | |- context [if ?c then _ else _] => destruct c
           end; lia. }
  assert (C2 : w < 30 -> hasSpecificExamples f = false -> score e <= 45).
  { intros H Hx. rewrite Es. unfold scoreFromFactors, settle. cbv zeta.
    rewrite Hx.
    replace (w <? 30) with true by (symmetry; apply Z.ltb_lt; lia).
    cbn [negb andb].
    repeat match goal with
           | |- context [if ?c then _ else _] => destruct c
           end; lia. }
  assert (C3 : hasSpecificExamples f = false ->
               hasQuantifiableResults f = false ->
               hasSTARStructure f = false -> score e <= 50).
  { intros Hx Hq Hs. rewrite Es. unfold scoreFromFactors, settle. cbv zeta.
    rewrite Hx, Hq, Hs. cbn [negb andb].
    repeat match goal with
           | |- context [if ?c then _ else _] => destruct c
           end; lia. }
  repeat split; try assumption; try (apply C3; assumption).
  - rewrite Ef, <- Es. specialize (C3 H H0 H1).
    unfold feedbackFor.
    destruct (Z.leb_spec 85 (score e)); [lia|].
    destruct (Z.leb_spec 70 (score e)); [lia|].
    cbn.
    destruct (50 <=? score e); [discriminate|].
    destruct (25 <=? score e); discriminate.
  - rewrite Ef, <- Es. specialize (C3 H H0 H1).
    unfold feedbackFor.
    destruct (Z.leb_spec 85 (score e)); [lia|].
    destruct (Z.leb_spec 70 (score e)); [lia|].
    cbn.
    destruct (50 <=? score e); [discriminate|].
    destruct (25 <=? score e); discriminate.
Qed.

Lemma score_ceilings_witness :
  score (calculateRealisticScore asciiToLowerCase (1 # 2) []
           shortPlainAnswer 45 None) <= 35.
Proof.
  assert (Hw : 15 <= wordCountOf (trim shortPlainAnswer))
    by (vm_compute; discriminate).
  destruct (score_ceilings asciiToLowerCase (1 # 2) [] shortPlainAnswer 45
              None Hw) as (C & _).
  apply C. vm_compute. reflexivity.
Defined.

End ScorerBands.

(* ------------------------------------------------------------------ *)
(** ** Penalties, feedback lists and the inputs besides the transcript *)

Module ScorerOrder.

Import Regex Scorer ScorerFacts.
Import Auxiliary.

(** *** Hedging *)

Lemma floorTimes07_at_most_80 (x : Z) :
  0 <= x <= 115 -> floorTimes07 x <= 80.
Proof.
  intro H. rewrite floorTimes07_small by exact H.
  destruct (x =? 90); Z.div_mod_to_equations; lia.
Qed.

(** X4: An answer of 15 words or more that contains "i dont know" or "not
    sure" (after lower-casing) scores at most 80, so it never gets the
    "Excellent response" feedback. *)
Theorem hedged_answer_at_most_80
        (toLowerCase : jsstring -> jsstring) (rnd : Q)
        (facial : list (Telemetry.Entry Telemetry.FacialData))
        (answer : jsstring) (responseTime : Q) (question : option string) :
  15 <= wordCountOf (trim answer) ->
  hedges (factorsOf toLowerCase facial answer responseTime) = true ->
  let e := calculateRealisticScore toLowerCase rnd facial answer
             responseTime question in
  score e <= 80 /\
  feedback e
  <> "Excellent response! Strong content with specific examples and clear impact.".
Proof.
  intros Hw Hh e.
  destruct (calculateRealisticScore_full toLowerCase rnd facial answer
              responseTime question Hw) as (Es & Ef).
  fold e in Es, Ef.
  set (f := factorsOf toLowerCase facial answer responseTime) in *.
  set (w := wordCountOf (trim answer)) in *.
  pose proof (earnedPoints_range f w
                (factorsOf_bounded toLowerCase facial answer responseTime)) as R.
  pose proof (floorTimes07_at_most_80 _ R) as F.
  assert (S80 : score e <= 80).
  { rewrite Es. unfold scoreFromFactors, settle. cbv zeta. rewrite Hh.
    repeat match goal with
           | |- context [if ?c then _ else _] => destruct c
           end; lia. }
  split; [exact S80|].
  rewrite Ef, <- Es. unfold feedbackFor.
  destruct (Z.leb_spec 85 (score e)); [lia|].
  destruct (70 <=? score e); [discriminate|].
  destruct (50 <=? score e); [discriminate|].
  destruct (25 <=? score e); discriminate.
Qed.

Lemma hedged_answer_at_most_80_witness :
  score (calculateRealisticScore asciiToLowerCase (1 # 2) []
           hedgedAnswer 45 None) <= 80.
Proof.
  apply (hedged_answer_at_most_80 asciiToLowerCase (1 # 2) []
           hedgedAnswer 45 None).
  - vm_compute. discriminate.
  - vm_compute. reflexivity.
Defined.

(** *** Feedback lists *)

(** X5: In the full-scoring branch the result always names at least one
    strength, and at least one improvement whenever the score is below
    85. *)
Theorem feedback_lists_not_empty
        (toLowerCase : jsstring -> jsstring) (rnd : Q)
        (facial : list (Telemetry.Entry Telemetry.FacialData))
        (answer : jsstring) (responseTime : Q) (question : option string) :
  15 <= wordCountOf (trim answer) ->
  let e := calculateRealisticScore toLowerCase rnd facial answer
             responseTime question in
  strengths e <> [] /\ (score e < 85 -> improvements e <> []).
Proof.
  intros Hw e. subst e.
  rewrite calculateRealisticScore_reaches_full by exact Hw.
  unfold fullScoring. cbv zeta. cbn [strengths improvements score].
  split.
  - match goal with
    | |- (if (0 =? Z.of_nat (List.length ?S)) && _ then _ else _) <> [] =>
        generalize S
    end.
    intros [|s S].
    + cbn [List.length Z.of_nat Z.eqb andb].
      replace (0 <? wordCountOf (trim answer)) with true
        by (symmetry; apply Z.ltb_lt; lia).
      discriminate.
    + cbn [List.length]. rewrite Nat2Z.inj_succ.
      replace (0 =? Z.succ (Z.of_nat (List.length S))) with false
        by (symmetry; apply Z.eqb_neq; lia).
      discriminate.
  - match goal with
    | |- ?T < 85 ->
         (if (0 =? Z.of_nat (List.length ?I)) && _ then _ else _) <> [] =>
        generalize I; generalize T
    end.
    intros T [|i I] HT.
    + cbn [List.length Z.of_nat Z.eqb andb].
      replace (T <? 85) with true by (symmetry; apply Z.ltb_lt; lia).
      discriminate.
    + cbn [List.length]. rewrite Nat2Z.inj_succ.
      replace (0 =? Z.succ (Z.of_nat (List.length I))) with false
        by (symmetry; apply Z.eqb_neq; lia).
      discriminate.
Qed.

Lemma feedback_lists_not_empty_witness :
  strengths (calculateRealisticScore asciiToLowerCase (1 # 2) []
               shortPlainAnswer 45 None) <> [].
Proof.
  apply (feedback_lists_not_empty asciiToLowerCase (1 # 2) []
           shortPlainAnswer 45 None).
  vm_compute. discriminate.
Defined.

(** *** Surrounding white space *)

Lemma dropWhile_all {A} (p : A -> bool) (l : list A) :
  forallb p l = true -> dropWhile p l = [].
Proof.
  induction l as [|x l IH]; cbn; [reflexivity|].
  destruct (p x); [exact IH | discriminate].
Qed.

Lemma dropWhile_app {A} (p : A -> bool) (l m : list A) :
  dropWhile p (l ++ m)
  = match dropWhile p l with
    | [] => dropWhile p m
    | _ :: _ => dropWhile p l ++ m
    end.
Proof.
  induction l as [|x l IH]; cbn.
  - destruct (dropWhile p m); reflexivity.
  - destruct (p x); [exact IH | reflexivity].
Qed.

Lemma trimStart_pad (pad s : jsstring) :
  forallb isWhiteSpace pad = true -> trimStart (pad ++ s) = trimStart s.
Proof.
  intro H. unfold trimStart.
  rewrite dropWhile_app, dropWhile_all by exact H. reflexivity.
Qed.

Lemma trimEnd_pad (s pad : jsstring) :
  forallb isWhiteSpace pad = true -> trimEnd (s ++ pad) = trimEnd s.
Proof.
  intro H. unfold trimEnd.
  rewrite rev_app_distr, dropWhile_app, dropWhile_all; [reflexivity|].
  rewrite forallb_forall in *. intros c Hc. apply H, in_rev. exact Hc.
Qed.

Lemma trim_pad (before s after : jsstring) :
  forallb isWhiteSpace before = true -> forallb isWhiteSpace after = true ->
  trim (before ++ s ++ after) = trim s.
Proof.
  intros Hb Ha. unfold trim.
  rewrite trimStart_pad by exact Hb.
  unfold trimStart at 1. rewrite dropWhile_app.
  fold (trimStart s).
  destruct (trimStart s) as [|c t] eqn:E.
  - rewrite dropWhile_all by exact Ha. reflexivity.
  - apply trimEnd_pad. exact Ha.
Qed.

(** X6: White space before and after the transcript (spaces, tabs, line
    breaks, no-break spaces ...) never changes the evaluation. *)
Theorem surrounding_whitespace_ignored
        (toLowerCase : jsstring -> jsstring) (rnd : Q)
        (facial : list (Telemetry.Entry Telemetry.FacialData))
        (before answer after : jsstring) (responseTime : Q)
        (question : option string) :
  forallb isWhiteSpace before = true ->
  forallb isWhiteSpace after = true ->
  calculateRealisticScore toLowerCase rnd facial (before ++ answer ++ after)
    responseTime question
  = calculateRealisticScore toLowerCase rnd facial answer responseTime question.
Proof.
  intros Hb Ha. unfold calculateRealisticScore.
  rewrite (trim_pad before answer after Hb Ha). reflexivity.
Qed.

Lemma surrounding_whitespace_ignored_witness :
  calculateRealisticScore asciiToLowerCase (1 # 2) []
    ([32; 9] ++ shortPlainAnswer ++ [10; 160])%N 45 None
  = calculateRealisticScore asciiToLowerCase (1 # 2) [] shortPlainAnswer 45 None.
Proof.
  apply (surrounding_whitespace_ignored asciiToLowerCase (1 # 2) []
           [32; 9]%N shortPlainAnswer [10; 160]%N 45 None); reflexivity.
Defined.

(** *** Telemetry and timing *)

(** The score of the full branch grows with the timing and non-verbal
    components when everything else agrees. *)
Lemma scoreFromFactors_components (w : Z) (f g : Factors) :
  boundedFactors f -> boundedFactors g ->
  structureScore f = structureScore g ->
  hasSpecificExamples f = hasSpecificExamples g ->
  hasQuantifiableResults f = hasQuantifiableResults g ->
  hasSTARStructure f = hasSTARStructure g ->
  technicalTerms f = technicalTerms g ->
  hedges f = hedges g -> mostlyLowercase f = mostlyLowercase g ->
  timingScore f <= timingScore g -> nonverbalScore f <= nonverbalScore g ->
  scoreFromFactors w f <= scoreFromFactors w g.
Proof.
  intros Bf Bg Hs Hx Hq Hst Ht Hh Hl Htime Hnv.
  pose proof (earnedPoints_range f w Bf) as Rf.
  pose proof (earnedPoints_range g w Bg) as Rg.
  assert (E : earnedPoints w f <= earnedPoints w g).
  { unfold earnedPoints. rewrite Hs, Hx, Hq, Hst, Ht. lia. }
  assert (S : forall x, settle w f x = settle w g x).
  { intro x. unfold settle. rewrite Hx, Hq, Hst, Hh, Hl. reflexivity. }
  unfold scoreFromFactors. rewrite S.
  apply settle_monotone; lia.
Qed.

Lemma calculateRealisticScore_brief
      (toLowerCase : jsstring -> jsstring) (rnd : Q)
      (facial1 facial2 : list (Telemetry.Entry Telemetry.FacialData))
      (answer : jsstring) (rt1 rt2 : Q) (question : option string) :
  wordCountOf (trim answer) < 15 ->
  calculateRealisticScore toLowerCase rnd facial1 answer rt1 question
  = calculateRealisticScore toLowerCase rnd facial2 answer rt2 question.
Proof.
  intro H. unfold calculateRealisticScore. cbv zeta.
  replace (wordCountOf (trim answer) <? 15) with true
    by (symmetry; apply Z.ltb_lt; lia).
  destruct (_ || _); [reflexivity|].
  destruct (_ <? 5); reflexivity.
Qed.

Lemma nonverbalScoreOf_nil : nonverbalScoreOf [] = 0.
Proof. reflexivity. Qed.

(** X7: Facial telemetry can only add to the score: with any facial history
    an answer scores at least what it scores with none. *)
Theorem telemetry_never_lowers_score
        (toLowerCase : jsstring -> jsstring) (rnd : Q)
        (facial : list (Telemetry.Entry Telemetry.FacialData))
        (answer : jsstring) (responseTime : Q) (question : option string) :
  score (calculateRealisticScore toLowerCase rnd [] answer responseTime question)
  <= score (calculateRealisticScore toLowerCase rnd facial answer
              responseTime question).
Proof.
  destruct (Z.le_gt_cases 15 (wordCountOf (trim answer))) as [Hw|Hw].
  - destruct (calculateRealisticScore_full toLowerCase rnd [] answer
                responseTime question Hw) as (E1 & _).
    destruct (calculateRealisticScore_full toLowerCase rnd facial answer
                responseTime question Hw) as (E2 & _).
    rewrite E1, E2.
    apply scoreFromFactors_components;
      try reflexivity; try apply factorsOf_bounded.
    all: cbn [factorsOf nonverbalScore];
      pose proof (nonverbalScoreOf_range facial);
      rewrite nonverbalScoreOf_nil; lia.
  - rewrite (calculateRealisticScore_brief toLowerCase rnd [] facial answer
               responseTime responseTime question) by lia.
    lia.
Qed.

Lemma timingScoreOf_best (responseTime : Q) :
  (20 <= responseTime)%Q -> (responseTime <= 120)%Q ->
  timingScoreOf responseTime = 15.
Proof.
  intros H1 H2. unfold timingScoreOf.
  replace (Qlt_bool responseTime 5) with false
    by (symmetry; apply not_true_is_false; rewrite Qlt_bool_true; lra).
  replace (Qlt_bool responseTime 15) with false
    by (symmetry; apply not_true_is_false; rewrite Qlt_bool_true; lra).
  rewrite (Qle_bool_true_of _ _ H1), (Qle_bool_true_of _ _ H2). reflexivity.
Qed.

(** X8: A response time between 20 and 120 seconds is never beaten: the same
    answer with the same telemetry scores no more at any other response
    time. *)
Theorem reward_window_is_optimal
        (toLowerCase : jsstring -> jsstring) (rnd : Q)
        (facial : list (Telemetry.Entry Telemetry.FacialData))
        (answer : jsstring) (responseTime other : Q)
        (question : option string) :
  (20 <= responseTime)%Q -> (responseTime <= 120)%Q ->
  score (calculateRealisticScore toLowerCase rnd facial answer other question)
  <= score (calculateRealisticScore toLowerCase rnd facial answer
              responseTime question).
Proof.
  intros H1 H2.
  destruct (Z.le_gt_cases 15 (wordCountOf (trim answer))) as [Hw|Hw].
  - destruct (calculateRealisticScore_full toLowerCase rnd facial answer
                other question Hw) as (E1 & _).
    destruct (calculateRealisticScore_full toLowerCase rnd facial answer
                responseTime question Hw) as (E2 & _).
    rewrite E1, E2.
    apply scoreFromFactors_components;
      try reflexivity; try apply factorsOf_bounded.
    all: cbn [factorsOf timingScore];
      rewrite (timingScoreOf_best responseTime H1 H2);
      apply timingScoreOf_range.
  - rewrite (calculateRealisticScore_brief toLowerCase rnd facial facial answer
               other responseTime question) by lia.
    lia.
Qed.

Lemma reward_window_is_optimal_witness :
  score (calculateRealisticScore asciiToLowerCase (1 # 2) []
           starAnswer 200 None)
  <= score (calculateRealisticScore asciiToLowerCase (1 # 2) []
              starAnswer 45 None).
Proof.
  apply (reward_window_is_optimal asciiToLowerCase (1 # 2) [] starAnswer
           45 200 None).
  - vm_compute. discriminate.
  - vm_compute. discriminate.
Defined.

End ScorerOrder.

(* ------------------------------------------------------------------ *)
(** ** Accumulation of the cumulative score *)

Module ScoreAlgebra.

Import Score Session Metrics.
Import Auxiliary.

Lemma sum_from (values : list Q) (a : Q) :
  (fold_left Qplus values a == a + sum values)%Q.
Proof.
  unfold sum. revert a.
  induction values as [|v values IH]; intro a; cbn [fold_left].
  - lra.
  - rewrite (IH (a + v)%Q), (IH (0 + v)%Q). lra.
Qed.

Lemma sum_cons (v : Q) (values : list Q) :
  (sum (v :: values) == v + sum values)%Q.
Proof.
  unfold sum at 1. cbn [fold_left]. rewrite sum_from. lra.
Qed.

Lemma ofNat_S (n : nat) : (ofNat (S n) == ofNat n + 1)%Q.
Proof.
  unfold ofNat. rewrite Nat2Z.inj_succ, <- Z.add_1_r, inject_Z_plus.
  reflexivity.
Qed.

Lemma ofNat_nonneg (n : nat) : (0 <= ofNat n)%Q.
Proof.
  unfold ofNat. change 0%Q with (inject_Z 0). rewrite <- Zle_Qle. lia.
Qed.

Lemma ofNat_plus (n m : nat) : (ofNat (n + m) == ofNat n + ofNat m)%Q.
Proof.
  unfold ofNat. rewrite Nat2Z.inj_add, inject_Z_plus. reflexivity.
Qed.

Lemma mergeAll_accumulates (es : list (AnyEvaluation * Q * Z)) :
  forall st : State,
    let s0 := interviewScore st in
    let s := interviewScore (mergeAll es st) in
    (totalScore s == totalScore s0 + (20 # 100) * sum (map scoreOf es))%Q /\
    (averageResponseTime s * ofNat (questionsAnswered s0 + List.length es)
     == averageResponseTime s0 * ofNat (questionsAnswered s0)
        + sum (map responseTimeOf es))%Q /\
    questionsAnswered s = (questionsAnswered s0 + List.length es)%nat /\
    questionsSkipped s = questionsSkipped s0.
Proof.
  induction es as [|e es IH]; intro st; cbv zeta.
  - change (mergeAll [] st) with st. cbn [map List.length].
    rewrite Nat.add_0_r. change (sum []) with 0%Q.
    repeat split; try reflexivity; lra.
  - change (mergeAll (e :: es) st)
      with (mergeAll es (updateScoreWithEvaluation
                           (fst (fst e)) (snd (fst e)) (snd e) st st)).
    destruct (IH (updateScoreWithEvaluation
                    (fst (fst e)) (snd (fst e)) (snd e) st st))
      as (T & A & N & K).
    cbv zeta in T, A, N, K.
    set (st1 := updateScoreWithEvaluation (fst (fst e)) (snd (fst e)) (snd e) st st)
      in *.
    set (s := interviewScore (mergeAll es st1)) in *.
    assert (T1 : totalScore (interviewScore st1)
                 = (totalScore (interviewScore st) + scoreOf e * (20 # 100))%Q)
      by reflexivity.
    assert (N1 : questionsAnswered (interviewScore st1)
                 = S (questionsAnswered (interviewScore st))) by reflexivity.
    assert (K1 : questionsSkipped (interviewScore st1)
                 = questionsSkipped (interviewScore st)) by reflexivity.
    assert (A1 : (averageResponseTime (interviewScore st1)
                  * ofNat (S (questionsAnswered (interviewScore st)))
                  == averageResponseTime (interviewScore st)
                     * ofNat (questionsAnswered (interviewScore st))
                     + responseTimeOf e)%Q).
    { change (averageResponseTime (interviewScore st1))
        with ((averageResponseTime (interviewScore st)
               * ofNat (questionsAnswered (interviewScore st))
               + responseTimeOf e)
              / ofNat (S (questionsAnswered (interviewScore st))))%Q.
      rewrite Qmult_comm. apply Qmult_div_r.
      pose proof (ofNat_nonneg (questionsAnswered (interviewScore st))).
      intro E. rewrite ofNat_S in E. lra. }
    cbn [map List.length]. rewrite !sum_cons.
    rewrite N1 in A, N.
    replace (questionsAnswered (interviewScore st) + S (List.length es))%nat
      with (S (questionsAnswered (interviewScore st)) + List.length es)%nat
      by lia.
    repeat split.
    + rewrite T, T1. lra.
    + rewrite A, A1. lra.
    + exact N.
    + rewrite K. exact K1.
Qed.

(** X9: Merging a run of evaluations from the initial state leaves
    [totalScore] at one fifth of the sum of the merged scores, counts one
    answered question per merge and keeps [averageResponseTime] the mean
    of the merged response times. *)
Theorem merge_sums_and_mean (es : list (AnyEvaluation * Q * Z)) :
  let s := interviewScore (mergeAll es initialState) in
  (totalScore s == sum (map scoreOf es) / 5)%Q /\
  questionsAnswered s = List.length es /\
  questionsSkipped s = 0%nat /\
  (es <> [] ->
   (averageResponseTime s
    == sum (map responseTimeOf es) / ofNat (List.length es))%Q).
Proof.
  destruct (mergeAll_accumulates es initialState) as (T & A & N & K).
  cbv zeta in *.
  change (questionsAnswered (interviewScore initialState)) with 0%nat in *.
  change (totalScore (interviewScore initialState)) with 0%Q in *.
  change (averageResponseTime (interviewScore initialState)) with 0%Q in *.
  cbn [Nat.add] in *.
  repeat split; try assumption.
  - rewrite T. unfold Qdiv. change (/ 5)%Q with (1 # 5)%Q.
    setoid_replace (20 # 100)%Q with (1 # 5)%Q by reflexivity. lra.
  - intro Hne.
    assert (Hpos : (0 < ofNat (List.length es))%Q).
    { destruct es as [|e es']; [contradiction|].
      cbn [List.length]. rewrite ofNat_S.
      pose proof (ofNat_nonneg (List.length es')). lra. }
    assert (Hnz : ~ (ofNat (List.length es) == 0)%Q) by (intro E; lra).
    apply Qmult_inj_r with (z := ofNat (List.length es)); [exact Hnz|].
    rewrite A.
    rewrite (Qmult_comm (_ / _)), Qmult_div_r by exact Hnz.
    change (ofNat 0) with 0%Q. lra.
Qed.

Lemma merge_sums_and_mean_witness :
  (averageResponseTime
     (interviewScore
        (mergeAll [(remoteEvaluation 80, 30%Q, 0%Z);
                   (remoteEvaluation 60, 50%Q, 1%Z)] initialState))
   == 40)%Q.
Proof.
  destruct (merge_sums_and_mean [(remoteEvaluation 80, 30%Q, 0%Z);
                                 (remoteEvaluation 60, 50%Q, 1%Z)])
    as (_ & _ & _ & M).
  rewrite M by discriminate. reflexivity.
Defined.

(** The penalty of a skip is at least 12. *)
Lemma skip_penalty_at_least_12 (prev : InterviewScore) :
  (12 <= calculateSkipPenalty (S (questionsSkipped prev))
           (questionsAnswered prev + S (questionsSkipped prev)))%Q.
Proof.
  rewrite Nat.add_succ_r. cbn [calculateSkipPenalty].
  unfold penaltyOfRate.
  repeat match goal with
         | |- context [if ?c then _ else _] => destruct c
         end; vm_compute; discriminate.
Qed.

Lemma skipScore_total_bounds (prev : InterviewScore) :
  (0 <= totalScore (skipScore prev))%Q /\
  (totalScore (skipScore prev) <= Qmax 0 (totalScore prev - 12))%Q /\
  ((0 <= totalScore prev)%Q -> (totalScore (skipScore prev) <= totalScore prev)%Q).
Proof.
  pose proof (skip_penalty_at_least_12 prev) as P.
  unfold skipScore. cbn [totalScore].
  set (p := calculateSkipPenalty _ _) in *.
  set (t := totalScore prev).
  destruct (Q.max_spec 0 (t - p)) as [[M1 M2]|[M1 M2]];
    destruct (Q.max_spec 0 (t - 12)) as [[N1 N2]|[N1 N2]];
    destruct (Q.min_spec (Qmax 0 (t - p)) 15) as [[A1 A2]|[A1 A2]];
    destruct (Q.min_spec (Qmax 0 (t - p)) 35) as [[B1 B2]|[B1 B2]];
    repeat match goal with
           | |- context [if ?c then _ else _] => destruct c
           end;
    repeat split; intros; lra.
Qed.

(** X10: A skip never leaves [totalScore] negative, never raises a
    non-negative [totalScore], and takes at least 12 points off (down to
    0 at the lowest). *)
Theorem skip_lowers_total (jobRole : string)
        (r : FetchResult (option string)) (now later : Z) (st : State) :
  let before := totalScore (interviewScore st) in
  let after := totalScore (interviewScore (skipQuestion jobRole r now later st)) in
  (0 <= after)%Q /\
  (after <= Qmax 0 (before - 12))%Q /\
  ((0 <= before)%Q -> (after <= before)%Q).
Proof.
  cbv zeta. rewrite SkipFacts.skipQuestion_score.
  apply skipScore_total_bounds.
Qed.

Lemma skip_lowers_total_witness :
  (totalScore
     (interviewScore
        (skipQuestion "Software Developer" Rejected 0 0
           (mergeAll [(remoteEvaluation 80, 30%Q, 0%Z)] initialState)))
   <= totalScore
        (interviewScore
           (mergeAll [(remoteEvaluation 80, 30%Q, 0%Z)] initialState)))%Q.
Proof.
  apply (skip_lowers_total "Software Developer" Rejected 0 0
           (mergeAll [(remoteEvaluation 80, 30%Q, 0%Z)] initialState)).
  vm_compute. discriminate.
Defined.

End ScoreAlgebra.

(* ------------------------------------------------------------------ *)
(** ** What each handler changes *)

Module HandlerFacts.

Import Telemetry Score Session Run.

Lemma generateNewQuestion_frame (jobRole : string)
      (r : FetchResult (option string)) (now : Z) (seen st : State) :
  let st' := generateNewQuestion jobRole r now seen st in
  analysisHistory st' = analysisHistory st /\
  interviewScore st' = interviewScore st /\
  alerts st' = alerts st /\
  currentQuestionNumber st'
  = (if Z.of_nat MAX_QUESTIONS <=? currentQuestionNumber seen
     then currentQuestionNumber st else currentQuestionNumber st + 1).
Proof.
  cbv zeta. unfold generateNewQuestion.
  destruct (Z.of_nat MAX_QUESTIONS <=? currentQuestionNumber seen);
    [repeat split|].
  destruct r as [|status [[q|]|]]; try destruct (responseOk status);
    repeat split.
Qed.

Lemma startInterview_frame (jobRole : string)
      (r : FetchResult (option string)) (now later : Z) (st : State) :
  let st' := startInterview jobRole r now later st in
  analysisHistory st' = analysisHistory st /\
  interviewScore st' = interviewScore st /\
  alerts st' = alerts st /\
  currentQuestionNumber st'
  = (if Z.of_nat MAX_QUESTIONS <=? currentQuestionNumber st
     then currentQuestionNumber st else currentQuestionNumber st + 1).
Proof.
  cbv zeta. unfold startInterview.
  destruct (generateNewQuestion_frame jobRole r later st
              (setQuestion (currentQuestion st) true (Some now)
                           (currentQuestionNumber st) st))
    as (A & B & C & D).
  cbv zeta in A, B, C, D. rewrite A, B, C, D. repeat split.
Qed.

Lemma onFacialAnalysis_frame (now : Z) (d : FacialData) (st : State) :
  let st' := onFacialAnalysis now d st in
  responses (analysisHistory st') = responses (analysisHistory st) /\
  voice (analysisHistory st') = voice (analysisHistory st) /\
  (List.length (facial (analysisHistory st')) <= 50)%nat /\
  totalScore (interviewScore st') = totalScore (interviewScore st) /\
  questionsAnswered (interviewScore st') = questionsAnswered (interviewScore st) /\
  questionsSkipped (interviewScore st') = questionsSkipped (interviewScore st) /\
  averageResponseTime (interviewScore st')
  = averageResponseTime (interviewScore st) /\
  communication (interviewScore st') = communication (interviewScore st) /\
  alerts st' = alerts st /\ timers st' = timers st /\
  currentQuestionNumber st' = currentQuestionNumber st /\
  currentQuestion st' = currentQuestion st /\
  currentAnswer st' = currentAnswer st /\
  isRecording st' = isRecording st.
Proof.
  cbv zeta.
  pose proof (TelemetryFacts.onFacialAnalysis_history now d st) as F.
  assert (L : (List.length (facial (analysisHistory (onFacialAnalysis now d st)))
               <= 50)%nat)
    by (rewrite F, TelemetryFacts.sliceLast_length; lia).
  revert L. unfold onFacialAnalysis.
  match goal with |- context [if ?c then _ else _] => destruct c end;
    intro L; repeat split; exact L.
Qed.

Lemma proceedToNextStep_frame (seen : InterviewScore) (st : State) :
  let st' := proceedToNextStep seen st in
  analysisHistory st' = analysisHistory st /\
  interviewScore st' = interviewScore st /\
  alerts st' = alerts st /\
  currentQuestionNumber st' = currentQuestionNumber st.
Proof.
  cbv zeta. unfold proceedToNextStep.
  destruct (MAX_QUESTIONS <=? _)%nat; repeat split.
Qed.

(** Merging one evaluation and advancing. *)
Lemma answered_frame (evaluation : AnyEvaluation) (responseTime : Q)
      (now : Z) (seen : InterviewScore) (closure st : State) :
  let st' := proceedToNextStep seen
               (updateScoreWithEvaluation evaluation responseTime now
                  closure st) in
  List.length (responses (analysisHistory st'))
  = S (List.length (responses (analysisHistory st))) /\
  facial (analysisHistory st') = facial (analysisHistory st) /\
  voice (analysisHistory st') = voice (analysisHistory st) /\
  interviewScore st'
  = mergeScore (orZero (score evaluation)) responseTime (interviewScore st) /\
  alerts st' = alerts st /\
  currentQuestionNumber st' = currentQuestionNumber st.
Proof.
  cbv zeta.
  destruct (proceedToNextStep_frame seen
              (updateScoreWithEvaluation evaluation responseTime now
                 closure st))
    as (A & B & C & D).
  cbv zeta in A, B, C, D. rewrite A, B, C, D.
  unfold updateScoreWithEvaluation.
  cbn [analysisHistory interviewScore alerts currentQuestionNumber
       setHistory setInterviewScore responses facial voice].
  rewrite length_app. cbn [List.length].
  repeat split. lia.
Qed.

Lemma skipQuestion_frame (jobRole : string)
      (r : FetchResult (option string)) (now later : Z) (st : State) :
  let st' := skipQuestion jobRole r now later st in
  List.length (responses (analysisHistory st'))
  = S (List.length (responses (analysisHistory st))) /\
  facial (analysisHistory st') = facial (analysisHistory st) /\
  voice (analysisHistory st') = voice (analysisHistory st) /\
  interviewScore st' = skipScore (interviewScore st) /\
  alerts st' = alerts st /\
  (currentQuestionNumber st' = currentQuestionNumber st
   \/ (currentQuestionNumber st < Z.of_nat MAX_QUESTIONS /\
       currentQuestionNumber st' = currentQuestionNumber st + 1)).
Proof.
  cbv zeta. unfold skipQuestion.
  destruct (MAX_QUESTIONS <=? _)%nat.
  - cbn [analysisHistory interviewScore alerts currentQuestionNumber
         setTimeout setEffects setHistory setInterviewScore responses
         facial voice].
    rewrite length_app. cbn [List.length].
    repeat split; [lia | left; reflexivity].
  - match goal with
    | |- context [generateNewQuestion jobRole r later ?c ?s] =>
        destruct (generateNewQuestion_frame jobRole r later c s)
          as (A & B & C & D); cbv zeta in A, B, C, D;
        rewrite A, B, C, D
    end.
    cbn [analysisHistory interviewScore alerts currentQuestionNumber
         setHistory setInterviewScore responses facial voice].
    rewrite length_app. cbn [List.length].
    repeat split; [lia|].
    destruct (Z.leb_spec (Z.of_nat MAX_QUESTIONS) (currentQuestionNumber st));
      [left; reflexivity | right; split; [assumption | reflexivity]].
Qed.

End HandlerFacts.

(* ------------------------------------------------------------------ *)
(** ** Invariants of a session, over every interleaving of handlers *)

Module RunFacts.

Import Telemetry Score Session Run HandlerFacts.
Import Auxiliary.

Section WithHost.

Variable toLowerCase : jsstring -> jsstring.
Variable jobRole : string.

Lemma localScore_in_range (rnd : Q) (st : State) (transcript : jsstring)
      (responseTime : Q) :
  (0 <= rnd < 1)%Q ->
  scoreInRange (localScore toLowerCase rnd st transcript responseTime).
Proof.
  intros [H0 H1]. unfold scoreInRange, localScore, ofLocal.
  cbn [score orZero].
  pose proof (ScorerFacts.calculateRealisticScore_range toLowerCase rnd
                (facial (analysisHistory st)) transcript responseTime
                (currentQuestion st) H0 H1) as [L U].
  split.
  - change 0%Q with (inject_Z 0). rewrite <- Zle_Qle. exact L.
  - change 100%Q with (inject_Z 100). rewrite <- Zle_Qle. exact U.
Qed.

Lemma processTranscriptOnly_effect (rnd : Q) (now stamp : Z)
      (seen st : State) :
  let evaluation :=
    localScore toLowerCase rnd seen (currentAnswer seen)
      (responseTimeAt now seen) in
  let st' := processTranscriptOnly toLowerCase rnd now stamp seen st in
  List.length (responses (analysisHistory st'))
  = S (List.length (responses (analysisHistory st))) /\
  facial (analysisHistory st') = facial (analysisHistory st) /\
  voice (analysisHistory st') = voice (analysisHistory st) /\
  interviewScore st'
  = mergeScore (orZero (score evaluation)) (responseTimeAt now seen)
      (interviewScore st) /\
  alerts st' = alerts st /\
  currentQuestionNumber st' = currentQuestionNumber st.
Proof.
  cbv zeta. unfold processTranscriptOnly. apply answered_frame.
Qed.

(** The three ways [processAudioAndTranscript] can go. *)
Lemma processAudioAndTranscript_cases
      (voiceFetch : FetchResult VoiceData)
      (remote : FetchResult (option AnyEvaluation))
      (rnd : Q) (now stamp later laterStamp : Z) (seen st : State) :
  let st' := processAudioAndTranscript toLowerCase voiceFetch remote rnd
               now stamp later laterStamp seen st in
  st' = st
  \/ st' = processTranscriptOnly toLowerCase rnd later laterStamp seen st
  \/ exists evaluation,
       st' = proceedToNextStep (interviewScore seen)
               (updateScoreWithEvaluation evaluation (responseTimeAt now seen)
                  stamp seen st)
       /\ (evaluation
           = localScore toLowerCase rnd seen (currentAnswer seen)
               (responseTimeAt now seen)
           \/ exists status, remote = Responded status (Some (Some evaluation))).
Proof.
  cbv zeta. unfold processAudioAndTranscript.
  set (fallback := processTranscriptOnly toLowerCase rnd later laterStamp
                     seen st).
  set (merged := fun evaluation =>
                   proceedToNextStep (interviewScore seen)
                     (updateScoreWithEvaluation evaluation
                        (responseTimeAt now seen) stamp seen st)).
  set (outcome := match evaluateResponse toLowerCase remote rnd seen
                          (currentAnswer seen) (responseTimeAt now seen) with
                  | Some evaluation => merged evaluation
                  | None => fallback
                  end).
  assert (G : forall b : bool,
             (if b then fallback else outcome) = st
             \/ (if b then fallback else outcome) = fallback
             \/ exists evaluation,
                 (if b then fallback else outcome) = merged evaluation
                 /\ (evaluation
                     = localScore toLowerCase rnd seen (currentAnswer seen)
                         (responseTimeAt now seen)
                     \/ exists status,
                         remote = Responded status (Some (Some evaluation)))).
  { intros [|]; [right; left; reflexivity|].
    subst outcome. unfold evaluateResponse.
    destruct remote as [|status [[evaluation|]|]];
      try destruct (responseOk status);
      try (right; left; reflexivity);
      right; right; eexists; split; try reflexivity; eauto. }
  destruct (audioChunks seen) as [|c cs].
  - destruct (trim (currentAnswer seen)); [left; reflexivity | exact (G false)].
  - match goal with
    | |- context [if ?b then _ else _] => exact (G b)
    end.
Qed.

Lemma stopRecording_cases (rnd : Q) (now stamp : Z) (st : State) :
  let stopped :=
    setRecording false false false (currentAnswer st) (audioChunks st) false st in
  fst (stopRecording toLowerCase rnd now stamp st) = stopped
  \/ fst (stopRecording toLowerCase rnd now stamp st)
     = processTranscriptOnly toLowerCase rnd now stamp st stopped.
Proof.
  cbv zeta. unfold stopRecording.
  destruct (mediaRecorderRecording st); [left; reflexivity|].
  destruct (trim (currentAnswer st)); [left | right]; reflexivity.
Qed.

(** The effect of any one handler call on what the invariants track. *)
Lemma step_effect (st : State) (e : Event) :
  let st' := step toLowerCase jobRole st e in
  alerts st' = alerts st ++ (if isDenied e then [microphoneAlert] else []) /\
  voice (analysisHistory st') = voice (analysisHistory st) /\
  (facial (analysisHistory st') = facial (analysisHistory st)
   \/ (isFacial e = true /\
       (List.length (facial (analysisHistory st')) <= 50)%nat)) /\
  (currentQuestionNumber st' = currentQuestionNumber st
   \/ currentQuestionNumber st' = currentQuestionNumber st + 1) /\
  Outcome st st' e.
Proof.
  cbv zeta.
  assert (Hq : forall (b : bool) (n n' : Z),
             n' = (if b then n else n + 1) -> n' = n \/ n' = n + 1).
  { intros [|] n n' ->; auto. }
  destruct e as [r now later | r now seen | now d | d | f | size | m
                | rnd now stamp
                | voiceFetch remote rnd now stamp later laterStamp seen
                | r now later | ];
    cbn [step isDenied].
  - destruct (startInterview_frame jobRole r now later st) as (A & B & C & D).
    cbv zeta in A, B, C, D. rewrite A, C, app_nil_r.
    repeat split; eauto. apply NothingRecorded; rewrite ?A, ?B; reflexivity.
  - destruct (generateNewQuestion_frame jobRole r now seen st)
      as (A & B & C & D).
    cbv zeta in A, B, C, D. rewrite A, C, app_nil_r.
    repeat split; eauto. apply NothingRecorded; rewrite ?A, ?B; reflexivity.
  - destruct (onFacialAnalysis_frame now d st)
      as (A & B & C & D & E & F & _ & _ & G & _ & H & _).
    cbv zeta in *. rewrite B, G, H, app_nil_r.
    repeat split; auto.
    apply NothingRecorded; try assumption. discriminate.
  - rewrite app_nil_r. repeat split; auto.
    apply NothingRecorded; reflexivity.
  - rewrite app_nil_r. unfold onresult.
    destruct f; repeat split; auto; apply NothingRecorded; reflexivity.
  - rewrite app_nil_r. unfold ondataavailable.
    destruct (0 <? size)%N; repeat split; auto;
      apply NothingRecorded; reflexivity.
  - destruct m as [starts|].
    + rewrite app_nil_r. repeat split; auto.
      apply NothingRecorded; reflexivity.
    + repeat split; auto. apply NothingRecorded; reflexivity.
  - rewrite app_nil_r.
    destruct (stopRecording_cases rnd now stamp st) as [E|E]; cbv zeta in E;
      rewrite E.
    + repeat split; auto. apply NothingRecorded; reflexivity.
    + match goal with
      | |- context [processTranscriptOnly toLowerCase rnd now stamp st ?s] =>
          destruct (processTranscriptOnly_effect rnd now stamp st s)
            as (A & B & C & D & F & G); cbv zeta in A, B, C, D, F, G
      end.
      rewrite B, C, F, G. repeat split; auto.
      eapply AnswerRecorded; [exact A | exact D|].
      intro W. apply localScore_in_range. exact W.
  - rewrite app_nil_r.
    destruct (processAudioAndTranscript_cases voiceFetch remote rnd
                now stamp later laterStamp seen st)
      as [E|[E|(evaluation & E & Hev)]]; cbv zeta in E; rewrite E.
    + repeat split; auto. apply NothingRecorded; reflexivity.
    + destruct (processTranscriptOnly_effect rnd later laterStamp seen st)
        as (A & B & C & D & F & G). cbv zeta in A, B, C, D, F, G.
      rewrite B, C, F, G. repeat split; auto.
      eapply AnswerRecorded; [exact A | exact D|].
      intros [W _]. apply localScore_in_range. exact W.
    + destruct (answered_frame evaluation (responseTimeAt now seen) stamp
                  (interviewScore seen) seen st) as (A & B & C & D & F & G).
      cbv zeta in A, B, C, D, F, G.
      rewrite B, C, F, G. repeat split; auto.
      eapply AnswerRecorded; [exact A | exact D|].
      intros [W R].
      destruct Hev as [->|[status ->]];
        [apply localScore_in_range; exact W | exact R].
  - destruct (skipQuestion_frame jobRole r now later st)
      as (A & B & C & D & F & G).
    cbv zeta in A, B, C, D, F, G. rewrite B, C, F, app_nil_r.
    repeat split; auto; [tauto|]. apply SkipRecorded; assumption.
  - rewrite app_nil_r. repeat split; auto.
    apply NothingRecorded; reflexivity.
Qed.

(** An invariant of every handler call holds after every run. *)
Lemma run_invariant (P : State -> Prop) (good : Event -> Prop) :
  (forall st e, good e -> P st -> P (step toLowerCase jobRole st e)) ->
  forall events st,
    Forall good events -> P st -> P (run toLowerCase jobRole events st).
Proof.
  intros Hstep events.
  induction events as [|e events IH]; intros st Hgood HP; [exact HP|].
  inversion Hgood as [|? ? He Hes]; subst.
  apply IH; [exact Hes|]. apply Hstep; assumption.
Qed.

Lemma Forall_trivial (events : list Event) : Forall (fun _ => True) events.
Proof. induction events; constructor; auto. Qed.

(** X11: Question records and counters agree: after any run of handler calls
    from the initial state there is exactly one record per answered or
    skipped question. *)
Theorem records_match_counts (events : list Event) :
  let st := run toLowerCase jobRole events initialState in
  List.length (responses (analysisHistory st))
  = (questionsAnswered (interviewScore st)
     + questionsSkipped (interviewScore st))%nat.
Proof.
  cbv zeta.
  apply (run_invariant
           (fun st => List.length (responses (analysisHistory st))
                      = (questionsAnswered (interviewScore st)
                         + questionsSkipped (interviewScore st))%nat)
           (fun _ => True));
    [| apply Forall_trivial | reflexivity].
  intros st e _ H.
  destruct (step_effect st e) as (_ & _ & _ & _ & O). cbv zeta in O.
  destruct O as [R _ A K _ | L S | evaluation rt L S _].
  - rewrite R, A, K. exact H.
  - rewrite L, S, H. cbn [skipScore questionsAnswered questionsSkipped]. lia.
  - rewrite L, S, H. cbn [mergeScore questionsAnswered questionsSkipped]. lia.
Qed.

(** X12: The question counter never goes down and a handler call raises it
    by at most one, so that after a run it lies between its value before
    and that value plus the number of calls.  [MAX_QUESTIONS] does not
    bound it: the guard of [generateNewQuestion] reads the counter of the
    render the callback closes over while the increment applies to the
    live one, and in [staleTimerRun] (a skip clicked at question 4 while the
    answer just recorded is still being evaluated, then the timer set by
    that evaluation) the counter reaches 6. *)
Theorem question_counter_steps (events : list Event) (st : State) :
  currentQuestionNumber st
  <= currentQuestionNumber (run toLowerCase jobRole events st)
  <= currentQuestionNumber st + Z.of_nat (List.length events)
  /\ currentQuestionNumber
       (run Scorer.asciiToLowerCase "Software Developer" staleTimerRun
          initialState) = Z.of_nat MAX_QUESTIONS + 1.
Proof.
  split; [|vm_compute; reflexivity].
  revert st. induction events as [|e events IH]; intro st.
  - cbn. lia.
  - change (run toLowerCase jobRole (e :: events) st)
      with (run toLowerCase jobRole events (step toLowerCase jobRole st e)).
    specialize (IH (step toLowerCase jobRole st e)).
    destruct (step_effect st e) as (_ & _ & _ & Q & _). cbv zeta in Q.
    cbn [List.length]. lia.
Qed.

(** X13: The only dialog a session ever shows is the microphone alert, once
    per denied recording start: no other handler, and no remote failure,
    raises one. *)
Theorem alerts_are_denied_recordings (events : list Event) :
  alerts (run toLowerCase jobRole events initialState)
  = repeat microphoneAlert (deniedRecordings events).
Proof.
  assert (G : forall events st,
             alerts (run toLowerCase jobRole events st)
             = alerts st ++ repeat microphoneAlert (deniedRecordings events)).
  { clear events. intro events.
    induction events as [|e events IH]; intro st.
    - cbn. rewrite app_nil_r. reflexivity.
    - change (run toLowerCase jobRole (e :: events) st)
        with (run toLowerCase jobRole events (step toLowerCase jobRole st e)).
      rewrite IH.
      destruct (step_effect st e) as (A & _). cbv zeta in A. rewrite A.
      rewrite <- app_assoc. f_equal.
      unfold deniedRecordings. cbn [filter].
      fold (isDenied e).
      destruct (isDenied e); reflexivity. }
  rewrite G. reflexivity.
Qed.

(** X14: In every run the facial history holds at most 50 entries and the
    voice history none. *)
Theorem histories_bounded (events : list Event) :
  let h := analysisHistory (run toLowerCase jobRole events initialState) in
  (List.length (facial h) <= 50)%nat /\ voice h = [].
Proof.
  cbv zeta.
  apply (run_invariant
           (fun st => (List.length (facial (analysisHistory st)) <= 50)%nat
                      /\ voice (analysisHistory st) = [])
           (fun _ => True));
    [| apply Forall_trivial | cbn; split; [lia | reflexivity]].
  intros st e _ [HF HV].
  destruct (step_effect st e) as (_ & V & [F|F] & _); cbv zeta in *.
  - rewrite V, F. split; assumption.
  - rewrite V. split; [apply F | assumption].
Qed.

(** X15: When every random draw lies in [0, 1) and every remote evaluation
    that is used carries a score between 0 and 100, [totalScore] stays
    between 0 and 20 points per answered question, whatever the order of
    answers, skips and other events. *)
Theorem total_within_earned (events : list Event) :
  Forall wellScored events ->
  let s := interviewScore (run toLowerCase jobRole events initialState) in
  (0 <= totalScore s <= 20 * ofNat (questionsAnswered s))%Q.
Proof.
  intro Hgood. cbv zeta.
  apply (run_invariant
           (fun st => (0 <= totalScore (interviewScore st)
                       <= 20 * ofNat (questionsAnswered (interviewScore st)))%Q)
           wellScored);
    [| exact Hgood | cbn; split; discriminate].
  intros st e W [H0 H1].
  destruct (step_effect st e) as (_ & _ & _ & _ & O). cbv zeta in O.
  destruct O as [_ T A _ _ | _ S | evaluation rt _ S R].
  - rewrite T, A. split; assumption.
  - rewrite S.
    destruct (ScoreAlgebra.skipScore_total_bounds (interviewScore st))
      as (B0 & _ & B1).
    specialize (B1 H0).
    cbn [skipScore questionsAnswered] in *. split; [exact B0 | lra].
  - rewrite S. specialize (R W). destruct R as [R0 R1].
    cbn [mergeScore totalScore questionsAnswered].
    rewrite ScoreAlgebra.ofNat_S. split; lra.
Qed.

End WithHost.

Lemma total_within_earned_witness :
  let s := interviewScore
             (run Scorer.asciiToLowerCase "Software Developer"
                [StartInterview Rejected 0 1;
                 SpeechResult Scorer.starAnswer;
                 EndRecording (1 # 2) 45000 45000;
                 SkipQuestion Rejected 46000 46001]
                initialState) in
  (0 <= totalScore s <= 20 * ofNat (questionsAnswered s))%Q.
Proof.
  apply (total_within_earned Scorer.asciiToLowerCase "Software Developer").
  repeat constructor; vm_compute; try discriminate; reflexivity.
Defined.

End RunFacts.

(* ------------------------------------------------------------------ *)
(** ** Question parameters and issuance *)

Module IssuanceFacts.

Import Score Session Issuance.
Import Auxiliary.

(** X17: Later questions are never easier: the difficulty of a question is
    one of easy, medium and hard, and it does not go down as the question
    number goes up. *)
Theorem difficulty_never_decreases (n m : Z) :
  n <= m ->
  0 <= difficultyRank (getDifficulty n)
  /\ difficultyRank (getDifficulty n) <= difficultyRank (getDifficulty m).
Proof.
  intro H. unfold getDifficulty.
  destruct (Z.leb_spec n 2), (Z.leb_spec n 4), (Z.leb_spec m 2),
    (Z.leb_spec m 4); cbn; lia.
Qed.

Lemma difficulty_never_decreases_witness :
  difficultyRank (getDifficulty 2) <= difficultyRank (getDifficulty 5).
Proof. apply (difficulty_never_decreases 2 5). lia. Defined.

Lemma ownProperty_in {A} (key : string) (table : list (string * A)) (v : A) :
  ownProperty key table = Some v -> In v (map snd table).
Proof.
  induction table as [|[k x] table IH]; cbn; [discriminate|].
  destruct (String.eqb key k).
  - intro E. injection E as ->. left. reflexivity.
  - intro E. right. apply IH. exact E.
Qed.

Lemma roleBasedCategories_wellFormed :
  Forall wellFormedCategories (map snd roleBasedCategories).
Proof. repeat constructor. Qed.

Lemma categoriesFor_wellFormed (jobRole : string) (categories : list string) :
  categoriesFor jobRole = Some categories -> wellFormedCategories categories.
Proof.
  unfold categoriesFor. intro H.
  pose proof roleBasedCategories_wellFormed as W.
  rewrite Forall_forall in W. apply W.
  destruct (ownProperty jobRole roleBasedCategories) as [c|] eqn:E.
  - injection H as <-. eapply ownProperty_in. exact E.
  - destruct (existsb (String.eqb jobRole) objectPrototypeKeys);
      [discriminate|].
    eapply ownProperty_in. exact H.
Qed.

(** X18: For every role that is not the name of a property inherited from
    [Object.prototype] (known roles, and unknown ones through the default
    table), every question number from 1 on has a category, the
    categories repeat with period 5, and the first and the fifth question
    are behavioral. *)
Theorem category_defined_from_first_question (jobRole : string) (n : Z) :
  existsb (String.eqb jobRole) objectPrototypeKeys = false ->
  1 <= n ->
  (exists c, getQuestionCategory jobRole n = Some c) /\
  getQuestionCategory jobRole (n + 5) = getQuestionCategory jobRole n /\
  getQuestionCategory jobRole 1 = Some "behavioral" /\
  getQuestionCategory jobRole 5 = Some "behavioral".
Proof.
  intros Hrole Hn. unfold getQuestionCategory.
  destruct (categoriesFor jobRole) as [categories|] eqn:E.
  - destruct (categoriesFor_wellFormed jobRole categories E) as (L & F & G).
    rewrite L. change (Z.of_nat 5) with 5.
    pose proof (Z.rem_bound_pos (n - 1) 5 ltac:(lia) ltac:(lia)) as B.
    repeat split.
    + unfold arrayAt.
      destruct (Z.ltb_spec (Z.rem (n - 1) 5) 0); [lia|].
      destruct (nth_error categories (Z.to_nat (Z.rem (n - 1) 5))) as [c|] eqn:N.
      * exists c. reflexivity.
      * apply nth_error_None in N. lia.
    + f_equal. rewrite !Z.rem_mod_nonneg by lia.
      replace (n + 5 - 1) with (n - 1 + 1 * 5) by lia.
      apply Z.mod_add. lia.
    + exact F.
    + exact G.
  - exfalso. unfold categoriesFor in E. rewrite Hrole in E.
    destruct (ownProperty jobRole roleBasedCategories); discriminate.
Qed.

Lemma category_defined_from_first_question_witness :
  getQuestionCategory "Astronaut" 7 = getQuestionCategory "Astronaut" 2
  /\ getQuestionCategory "Astronaut" 2 = Some "situational".
Proof.
  split; [|reflexivity].
  apply (category_defined_from_first_question "Astronaut" 2);
    [reflexivity | lia].
Defined.



End IssuanceFacts.

(* ------------------------------------------------------------------ *)
(** ** End-of-session statistics *)

Module MetricsFacts.

Import Metrics.

Lemma lengthQ_pos {A} (x : A) (l : list A) : (0 < lengthQ (x :: l))%Q.
Proof.
  unfold lengthQ. change 0%Q with (inject_Z 0). rewrite <- Zlt_Qlt.
  cbn [List.length]. lia.
Qed.

Lemma lengthQ_cons {A} (x : A) (l : list A) :
  (lengthQ (x :: l) == lengthQ l + 1)%Q.
Proof.
  unfold lengthQ. cbn [List.length].
  rewrite Nat2Z.inj_succ, <- Z.add_1_r, inject_Z_plus. reflexivity.
Qed.

Lemma Qsquare_nonneg (x : Q) : (0 <= x * x)%Q.
Proof.
  unfold Qle, Qmult. cbn. rewrite Z.mul_1_r. apply Z.square_nonneg.
Qed.

Lemma squares_from (mean : Q) (values : list Q) (a : Q) :
  (a <= fold_left (fun acc val => acc + (val - mean) * (val - mean)) values a)%Q.
Proof.
  revert a. induction values as [|v values IH]; intro a; cbn [fold_left].
  - lra.
  - eapply Qle_trans; [|apply IH].
    pose proof (Qsquare_nonneg (v - mean)). lra.
Qed.

Lemma squares_constant (c : Q) (values : list Q) (mean a : Q) :
  Forall (fun v => v == c)%Q values -> (mean == c)%Q ->
  (fold_left (fun acc val => acc + (val - mean) * (val - mean)) values a == a)%Q.
Proof.
  intros H Hm. revert a.
  induction H as [|v values Hv _ IH]; intro a; cbn [fold_left].
  - reflexivity.
  - rewrite IH. rewrite Hv, Hm. lra.
Qed.

Lemma sum_constant (c : Q) (values : list Q) :
  Forall (fun v => v == c)%Q values -> (sum values == c * lengthQ values)%Q.
Proof.
  induction 1 as [|v values Hv _ IH].
  - change (sum []) with 0%Q. change (lengthQ (@nil Q)) with 0%Q. lra.
  - rewrite ScoreAlgebra.sum_cons, IH, lengthQ_cons, Hv. lra.
Qed.

(** Over exact rationals: the variance of a non-empty series is defined,
    not negative, and 0 when all values are equal. *)
Lemma calculateVariance_exact (values : list Q) :
  values <> [] ->
  exists variance,
    calculateVariance values = Some variance /\ (0 <= variance)%Q /\
    forall c, Forall (fun v => v == c)%Q values -> (variance == 0)%Q.
Proof.
  intro Hne. destruct values as [|v values]; [contradiction|].
  unfold calculateVariance. cbv zeta.
  eexists. split; [reflexivity|].
  pose proof (lengthQ_pos v values) as Hpos.
  split.
  - apply Qle_shift_div_l; [exact Hpos|].
    rewrite Qmult_0_l. apply squares_from.
  - intros c Hc.
    rewrite (squares_constant c (v :: values) _ 0 Hc).
    + unfold Qdiv. lra.
    + rewrite (sum_constant c _ Hc). field.
      intro E. rewrite E in Hpos. lra.
Qed.

(** X20: The variance of a non-empty series is a number and it is never
    negative; the variance of a single value is 0; for no value at all
    the result is [NaN]. *)
Theorem variance_not_negative (values : list Q) :
  (values <> [] ->
   exists variance,
     calculateVariance values = Some variance /\ (0 <= variance)%Q) /\
  (forall v, exists variance,
      calculateVariance [v] = Some variance /\ (variance == 0)%Q) /\
  calculateVariance [] = None.
Proof.
  split; [|split; [|reflexivity]].
  - intro Hne.
    destruct (calculateVariance_exact values Hne) as (variance & E & H & _).
    exists variance. split; assumption.
  - intro v.
    destruct (calculateVariance_exact [v] ltac:(discriminate))
      as (variance & E & _ & Z).
    exists variance. split; [exact E|].
    apply (Z v). constructor; [reflexivity | constructor].
Qed.

Lemma variance_not_negative_witness :
  exists variance,
    calculateVariance [80; 60; 70]%Q = Some variance /\ (0 <= variance)%Q.
Proof.
  destruct (variance_not_negative [80; 60; 70]%Q) as (H & _).
  apply H. discriminate.
Defined.

(** X21: The consistency score is always a number between 0 and 100, and it
    is 100 when all scores are equal (or fewer than two are given). *)
Theorem consistency_between_0_and_100 (scores : list Q) :
  exists c,
    calculateConsistency scores = Some c /\ (0 <= c <= 100)%Q /\
    (forall s, Forall (fun v => v == s)%Q scores -> (c == 100)%Q).
Proof.
  unfold calculateConsistency.
  destruct (List.length scores <? 2)%nat eqn:L.
  - exists 100%Q. repeat split; try reflexivity; discriminate.
  - assert (Hne : scores <> [])
      by (intro E; subst; cbn in L; discriminate).
    destruct (calculateVariance_exact scores Hne) as (variance & E & H0 & Hc).
    rewrite E. eexists. split; [reflexivity|].
    destruct (Q.max_spec 0 (100 - variance * 2)) as [[M1 M2]|[M1 M2]].
    + repeat split; try lra.
      intros s Hs. rewrite M2, (Hc s Hs). lra.
    + repeat split; try lra.
      intros s Hs. specialize (Hc s Hs). lra.
Qed.

End MetricsFacts.

(* ------------------------------------------------------------------ *)
(** ** The behavioural metrics and the transcript *)

Module MetricFacts.

Import Telemetry Score Session Run HandlerFacts RunFacts.
Import Auxiliary.

Lemma toFixed3_unit (x : Q) : inUnit x -> inUnit (toFixed3 x).
Proof.
  intros [H0 H1]. unfold toFixed3.
  rewrite (Qle_bool_true_of _ _ H0).
  assert (L : 0 <= Qfloor (x * 1000 + (1 # 2))).
  { apply Z.le_trans with (Qfloor (1 # 2)); [vm_compute; discriminate|].
    apply Qfloor_resp_le. lra. }
  assert (U : Qfloor (x * 1000 + (1 # 2)) <= 1000).
  { apply Z.le_trans with (Qfloor (1000 + (1 # 2)));
      [|vm_compute; discriminate].
    apply Qfloor_resp_le. lra. }
  unfold inUnit, Qle. cbn [Qnum Qden]. lia.
Qed.

Lemma average_from {A} (f : A -> option Q) (l : list A) (a : Q) :
  Forall (fun e => inUnit (orZero (f e))) l ->
  (a <= fold_left (fun sum entry => sum + orZero (f entry)) l a
   <= a + inject_Z (Z.of_nat (List.length l)))%Q.
Proof.
  intro H. revert a.
  induction H as [|e l [E0 E1] _ IH]; intro a; cbn [fold_left List.length].
  - change (inject_Z (Z.of_nat 0)) with 0%Q. lra.
  - destruct (IH (a + orZero (f e))%Q) as [I0 I1].
    rewrite Nat2Z.inj_succ, <- Z.add_1_r, inject_Z_plus.
    change (inject_Z 1) with 1%Q. lra.
Qed.

Lemma average_unit {A} (f : A -> option Q) (l : list A) :
  l <> [] -> Forall (fun e => inUnit (orZero (f e))) l -> inUnit (average f l).
Proof.
  intros Hne H. unfold average, inUnit.
  destruct (average_from f l 0 H) as [A0 A1].
  assert (P : (0 < inject_Z (Z.of_nat (List.length l)))%Q).
  { change 0%Q with (inject_Z 0). rewrite <- Zlt_Qlt.
    destruct l; [contradiction | cbn [List.length]; lia]. }
  split.
  - apply Qle_shift_div_l; [exact P | lra].
  - apply Qle_shift_div_r; [exact P | lra].
Qed.

Lemma Forall_sliceLast {A} (P : A -> Prop) (n : nat) (l : list A) :
  Forall P l -> Forall P (sliceLast n l).
Proof.
  unfold sliceLast. generalize (List.length l - n)%nat as k.
  intros k H. revert k.
  induction H as [|x l Hx H IH]; intros [|k]; cbn [skipn]; auto.
Qed.

Lemma sliceLast_not_nil {A} (n : nat) (l : list A) :
  (0 < n)%nat -> l <> [] -> sliceLast n l <> [].
Proof.
  intros Hn Hl E.
  pose proof (TelemetryFacts.sliceLast_length n l) as L. rewrite E in L.
  destruct l; [contradiction | cbn [List.length] in L; lia].
Qed.

(** The facial handler on a history of good samples. *)
Lemma onFacialAnalysis_metrics (now : Z) (d : FacialData) (st : State) :
  goodData d -> goodHistory st ->
  inUnit (communication (interviewScore st)) ->
  goodHistory (onFacialAnalysis now d st)
  /\ metricsInUnit (interviewScore (onFacialAnalysis now d st)).
Proof.
  intros Hd Hh Hc.
  assert (G : Forall (fun e => goodData (data e))
                (sliceLast 50
                   (facial (analysisHistory st)
                    ++ [{| timestamp := now; data := d |}]))).
  { apply Forall_sliceLast, Forall_app. split; [exact Hh|].
    constructor; [exact Hd | constructor]. }
  assert (N : sliceLast 20
                (sliceLast 50
                   (facial (analysisHistory st)
                    ++ [{| timestamp := now; data := d |}])) <> []).
  { apply sliceLast_not_nil; [lia|]. apply sliceLast_not_nil; [lia|].
    destruct (facial (analysisHistory st)); discriminate. }
  pose proof (Forall_sliceLast _ 20 _ G) as G20.
  unfold onFacialAnalysis. cbv zeta.
  cbn [analysisHistory setHistory setTelemetryData facial interviewScore].
  destruct (sliceLast 20 _) as [|x recent] eqn:E; [contradiction|].
  cbn [List.length Nat.ltb Nat.leb].
  split.
  - unfold goodHistory.
    cbn [analysisHistory setInterviewScore setHistory setTelemetryData facial].
    exact G.
  - unfold metricsInUnit.
    cbn [interviewScore setInterviewScore withAverages Score.confidence
         Score.engagement eyeContact communication setHistory
         setTelemetryData].
    repeat split; try apply toFixed3_unit; try apply average_unit;
      try discriminate; try exact (proj1 Hc); try exact (proj2 Hc);
      (eapply Forall_impl; [|exact G20]); intros e He; apply He.
Qed.

Lemma skipScore_metrics (s : InterviewScore) :
  metricsInUnit s -> metricsInUnit (skipScore s).
Proof.
  intros ([A0 A1] & [B0 B1] & E & [C0 C1]).
  unfold metricsInUnit, inUnit, skipScore.
  cbn [Score.confidence Score.engagement eyeContact communication].
  destruct (Q.max_spec (5 # 100) (Score.confidence s - (25 # 100)))
    as [[? ?]|[? ?]];
    destruct (Q.max_spec (5 # 100) (Score.engagement s - (20 # 100)))
      as [[? ?]|[? ?]];
    destruct (Q.max_spec (5 # 100) (communication s - (15 # 100)))
      as [[? ?]|[? ?]];
    repeat split; try apply E; lra.
Qed.

Section WithHost.

Variable toLowerCase : jsstring -> jsstring.
Variable jobRole : string.

(** X16: When every facial sample carries metrics in [0, 1], confidence,
    engagement, eye contact and communication stay in [0, 1] through any
    run of answers, skips, telemetry and other events. *)
Theorem metrics_stay_in_unit (events : list Event) :
  Forall goodTelemetry events ->
  metricsInUnit (interviewScore (run toLowerCase jobRole events initialState)).
Proof.
  intro Hgood.
  apply (run_invariant toLowerCase jobRole
           (fun st => goodHistory st /\ metricsInUnit (interviewScore st))
           goodTelemetry);
    [| exact Hgood
     | split; [constructor | repeat split; vm_compute; discriminate]].
  intros st e W [Hh Hm].
  destruct e as [r now later | r now seen | now d | d | f | size | m
                | rnd now stamp
                | voiceFetch remote rnd now stamp later laterStamp seen
                | r now later | ] eqn:Ee;
    try (destruct (step_effect toLowerCase jobRole st e)
           as (_ & _ & [F|[F _]] & _ & O);
         subst e; cbv zeta in F, O; cbn [isFacial] in F; try discriminate;
         (split; [unfold goodHistory; rewrite F; exact Hh|]);
         destruct O as [_ _ _ _ I | _ S | evaluation rt _ S _];
         [rewrite (I eq_refl); exact Hm
         | rewrite S; apply skipScore_metrics; exact Hm
         | rewrite S; exact Hm]).
  cbn [step]. apply onFacialAnalysis_metrics;
    [exact W | exact Hh | apply Hm].
Qed.

End WithHost.

Lemma metrics_stay_in_unit_witness :
  metricsInUnit
    (interviewScore
       (run Scorer.asciiToLowerCase "Software Developer"
          [FacialAnalysis 0 {| Telemetry.confidence := Some (7 # 10);
                               Telemetry.engagement := None;
                               Telemetry.eye_contact := Some 1%Q |};
           SkipQuestion Rejected 1 2]
          initialState)).
Proof.
  apply (metrics_stay_in_unit Scorer.asciiToLowerCase "Software Developer").
  repeat constructor; vm_compute; discriminate.
Defined.

End MetricFacts.

(* ------------------------------------------------------------------ *)
(** ** Assembling the transcript *)

Module TranscriptFacts.

Import Session.
Import Auxiliary.






End TranscriptFacts.

(* ------------------------------------------------------------------ *)
(** ** Score range, facial history and sessions of skips *)

Module SessionFacts.

Import Telemetry Score Session Run.
Import Auxiliary.

(** X1: With [Math.random()] in [0, 1), the local scorer returns a score
    between 0 and 100 for every transcript, response time and facial
    history. *)
Theorem local_score_between_0_and_100
        (toLowerCase : jsstring -> jsstring) (rnd : Q)
        (facial : list (Entry FacialData))
        (answer : jsstring) (responseTime : Q) (question : option string) :
  (0 <= rnd)%Q -> (rnd < 1)%Q ->
  0 <= Scorer.score (Scorer.calculateRealisticScore toLowerCase rnd facial
                       answer responseTime question) <= 100.
Proof.
  intros H0 H1.
  apply ScorerFacts.calculateRealisticScore_range; assumption.
Qed.

Lemma local_score_between_0_and_100_witness :
  0 <= Scorer.score (Scorer.calculateRealisticScore Scorer.asciiToLowerCase
                       (1 # 2) [] Scorer.starAnswer 45 None) <= 100.
Proof.
  apply (local_score_between_0_and_100 Scorer.asciiToLowerCase (1 # 2) []
           Scorer.starAnswer 45 None).
  - vm_compute. discriminate.
  - vm_compute. reflexivity.
Defined.

(** X24: After any number of facial events from the start of a session, the
    facial history is exactly the last 50 of them (all of them while
    there are at most 50), in arrival order and with their timestamps. *)
Theorem facial_history_is_last_50 (samples : list (Z * FacialData)) :
  let h := facial (analysisHistory (ingestFacial samples initialState)) in
  h = sliceLast 50 (map entryOf samples) /\
  List.length h = Nat.min 50 (List.length samples) /\
  exists dropped, map entryOf samples = dropped ++ h.
Proof.
  cbv zeta.
  rewrite TelemetryFacts.ingestFacial_history by (cbn; lia).
  cbn [initialState analysisHistory facial app].
  rewrite TelemetryFacts.sliceLast_length, length_map.
  repeat split.
  exists (firstn (List.length (map entryOf samples) - 50) (map entryOf samples)).
  unfold sliceLast. symmetry. apply firstn_skipn.
Qed.

Lemma skipScore_from (n : nat) (s : InterviewScore) :
  (totalScore s == 0)%Q ->
  (Score.confidence s == Qmax (5 # 100) ((5 # 10) - (25 # 100) * ofNat n))%Q ->
  (totalScore (skipScore s) == 0)%Q /\
  (Score.confidence (skipScore s)
   == Qmax (5 # 100) ((5 # 10) - (25 # 100) * ofNat (S n)))%Q.
Proof.
  intros T C.
  destruct (ScoreAlgebra.skipScore_total_bounds s) as (B0 & B1 & _).
  split.
  - destruct (Q.max_spec 0 (totalScore s - 12)) as [[? M]|[? M]]; lra.
  - unfold skipScore. cbn [Score.confidence].
    rewrite ScoreAlgebra.ofNat_S.
    destruct (Q.max_spec (5 # 100) (Score.confidence s - (25 # 100)))
      as [[? M1]|[? M1]];
      destruct (Q.max_spec (5 # 100) ((5 # 10) - (25 # 100) * ofNat n))
        as [[? M2]|[? M2]];
      destruct (Q.max_spec (5 # 100) ((5 # 10) - (25 # 100) * (ofNat n + 1)))
        as [[? M3]|[? M3]];
      lra.
Qed.

(** X25: A session in which every question is skipped: after [n] skips in a
    row from the start, [n] questions are counted as skipped and none as
    answered, [totalScore] is 0, and confidence is 0.5 less 0.25 per
    skip, held at the floor 0.05 (reached with the second skip). *)
Theorem all_skipped_session (jobRole : string)
        (skips : list (FetchResult (option string) * Z * Z)) :
  let s := interviewScore
             (fold_left
                (fun st k => skipQuestion jobRole (fst (fst k)) (snd (fst k))
                               (snd k) st)
                skips initialState) in
  questionsSkipped s = List.length skips /\
  questionsAnswered s = 0%nat /\
  (totalScore s == 0)%Q /\
  (Score.confidence s
   == Qmax (5 # 100) ((5 # 10) - (25 # 100) * ofNat (List.length skips)))%Q /\
  ((2 <= List.length skips)%nat -> (Score.confidence s == 5 # 100)%Q).
Proof.
  cbv zeta.
  assert (G : forall (skips : list (FetchResult (option string) * Z * Z))
                     (st : State) (n : nat),
             questionsSkipped (interviewScore st) = n ->
             questionsAnswered (interviewScore st) = 0%nat ->
             (totalScore (interviewScore st) == 0)%Q ->
             (Score.confidence (interviewScore st)
              == Qmax (5 # 100) ((5 # 10) - (25 # 100) * ofNat n))%Q ->
             let s := interviewScore
                        (fold_left
                           (fun st k => skipQuestion jobRole (fst (fst k))
                                          (snd (fst k)) (snd k) st)
                           skips st) in
             questionsSkipped s = (n + List.length skips)%nat /\
             questionsAnswered s = 0%nat /\
             (totalScore s == 0)%Q /\
             (Score.confidence s
              == Qmax (5 # 100)
                   ((5 # 10) - (25 # 100) * ofNat (n + List.length skips)))%Q).
  { clear skips. intro skips.
    induction skips as [|k skips IH]; intros st n K A T C; cbv zeta.
    - cbn [fold_left List.length]. rewrite Nat.add_0_r. auto.
    - cbn [fold_left List.length].
      replace (n + S (List.length skips))%nat
        with (S n + List.length skips)%nat by lia.
      apply IH.
      + rewrite SkipFacts.skipQuestion_score. cbn. rewrite K. reflexivity.
      + rewrite SkipFacts.skipQuestion_score. cbn. exact A.
      + rewrite SkipFacts.skipQuestion_score.
        apply (skipScore_from n); assumption.
      + rewrite SkipFacts.skipQuestion_score.
        apply (skipScore_from n); assumption. }
  destruct (G skips initialState 0%nat) as (K & A & T & C);
    try reflexivity.
  cbn [Nat.add] in *.
  repeat split; try assumption.
  intro H2. rewrite C.
  assert (L : (2 <= ofNat (List.length skips))%Q).
  { unfold ofNat. change 2%Q with (inject_Z 2). rewrite <- Zle_Qle. lia. }
  destruct (Q.max_spec (5 # 100)
              ((5 # 10) - (25 # 100) * ofNat (List.length skips)))
    as [[? M]|[? M]]; lra.
Qed.

Lemma all_skipped_session_witness :
  (Score.confidence
     (interviewScore
        (fold_left
           (fun st k => skipQuestion "Software Developer" (fst (fst k))
                          (snd (fst k)) (snd k) st)
           (repeat (Rejected, 0%Z, 0%Z) 5) initialState))
   == 5 # 100)%Q.
Proof.
  destruct (all_skipped_session "Software Developer"
              (repeat (Rejected, 0%Z, 0%Z) 5)) as (_ & _ & _ & _ & F).
  apply F. cbn. lia.
Defined.

End SessionFacts.
